(** * hansae-mju-meal: the menu extractor and renderer of [meal.py]

    A shallow embedding of [parse_html] and [generate_html] and the
    properties of the extraction pipeline.

    Python values are modelled as follows.
    - [str] is a list of Unicode code points ([pystr]); literals are written
      [U "..."] and decoded from the UTF-8 bytes of the source text.
    - The document tree built by [BeautifulSoup(html, "html.parser")] is the
      inductive type [node]; [find], [find_all], [get_text] and [select_one]
      walk it in document order as the library does.
    - [print] and the clock are effects on a [World]; an exception ends a
      computation with [Raise]. *)

From Stdlib Require Import List NArith ZArith Bool Lia.
From Stdlib Require Import Strings.String Strings.Ascii.
From Stdlib Require Import Sorting.Permutation Sorting.Sorted.
Import ListNotations.

Set Implicit Arguments.
Set Warnings "-register-all".

(** ** Python strings *)

Definition char := N.
Definition pystr := list char.

(** Decoding of the UTF-8 bytes of a literal into code points. *)
Fixpoint utf8_decode (bs : list N) : pystr :=
  match bs with
  | [] => []
  | b0 :: r0 =>
      if (b0 <? 128)%N then b0 :: utf8_decode r0
      else if (b0 <? 224)%N then
        match r0 with
        | b1 :: r1 => ((b0 mod 32) * 64 + b1 mod 64)%N :: utf8_decode r1
        | _ => []
        end
      else if (b0 <? 240)%N then
        match r0 with
        | b1 :: b2 :: r2 =>
            ((b0 mod 16) * 4096 + (b1 mod 64) * 64 + b2 mod 64)%N
              :: utf8_decode r2
        | _ => []
        end
      else
        match r0 with
        | b1 :: b2 :: b3 :: r3 =>
            ((b0 mod 8) * 262144 + (b1 mod 64) * 4096
             + (b2 mod 64) * 64 + b3 mod 64)%N :: utf8_decode r3
        | _ => []
        end
  end.

Definition U (s : string) : pystr :=
  utf8_decode (map N_of_ascii (list_ascii_of_string s)).

Definition NL : char := 10%N.
Definition DQ : pystr := [34%N].

Definition in_range (lo len c : N) : bool :=
  ((lo <=? c) && (c <? lo + len))%N.

(** [Py_UNICODE_ISSPACE]: what [str.strip()] removes and what [\s] matches
    in a [str] pattern. *)
Definition Py_UNICODE_ISSPACE (c : char) : bool :=
  in_range 9 5 c || in_range 28 5 c || (c =? 133)%N || (c =? 160)%N
  || (c =? 5760)%N || in_range 8192 11 c || in_range 8232 2 c
  || (c =? 8239)%N || (c =? 8287)%N || (c =? 12288)%N.

(** First code points of the blocks of ten decimal digits (category Nd). *)
Definition decimal_blocks : list N :=
  [48; 1632; 1776; 1984; 2406; 2534; 2662; 2790; 2918; 3046; 3174; 3302;
   3430; 3558; 3664; 3792; 3872; 4160; 4240; 6112; 6160; 6470; 6608; 6784;
   6800; 6992; 7088; 7232; 7248; 42528; 43216; 43264; 43472; 43504; 43600;
   44016; 65296; 66720; 68912; 69734; 69872; 69942; 70096; 70384; 70736;
   70864; 71248; 71360; 71472; 71904; 72016; 72784; 73040; 73120; 92768;
   92864; 93008; 123200; 123632; 125264; 130032]%N.

(** [Py_UNICODE_ISDECIMAL]: what [\d] matches in a [str] pattern. *)
Definition Py_UNICODE_ISDECIMAL (c : char) : bool :=
  existsb (fun lo => in_range lo 10 c) decimal_blocks
  || in_range 120782 50 c.

Fixpoint str_eqb (a b : pystr) : bool :=
  match a, b with
  | [], [] => true
  | x :: a', y :: b' => (x =? y)%N && str_eqb a' b'
  | _, _ => false
  end.

(** [a <= b] on [str]: lexicographic on code points. *)
Fixpoint str_leb (a b : pystr) : bool :=
  match a, b with
  | [], _ => true
  | _ :: _, [] => false
  | x :: a', y :: b' =>
      if (x <? y)%N then true
      else if (x =? y)%N then str_leb a' b' else false
  end.

Fixpoint lstrip (s : pystr) : pystr :=
  match s with
  | [] => []
  | c :: t => if Py_UNICODE_ISSPACE c then lstrip t else s
  end.

Definition rstrip (s : pystr) : pystr := rev (lstrip (rev s)).

(** [s.strip()] *)
Definition strip (s : pystr) : pystr := rstrip (lstrip s).

(** [s.split(sep)] for a one-character separator. *)
Fixpoint split (sep : char) (s : pystr) : list pystr :=
  match s with
  | [] => [[]]
  | c :: t =>
      if (c =? sep)%N then [] :: split sep t
      else match split sep t with
           | h :: r => (c :: h) :: r
           | [] => [[c]]
           end
  end.

(** [sep.join(parts)] *)
Fixpoint join (sep : pystr) (parts : list pystr) : pystr :=
  match parts with
  | [] => []
  | [p] => p
  | p :: rest => p ++ sep ++ join sep rest
  end.

Fixpoint startswith (p s : pystr) : bool :=
  match p, s with
  | [], _ => true
  | x :: p', y :: s' => (x =? y)%N && startswith p' s'
  | _ :: _, [] => false
  end.

(** [sub in s] *)
Fixpoint contains (sub s : pystr) : bool :=
  startswith sub s ||
  match s with
  | [] => false
  | _ :: t => contains sub t
  end.

(** ASCII lower-casing of a tag name. *)
Definition lower (s : pystr) : pystr :=
  map (fun c => if in_range 65 26 c then (c + 32)%N else c) s.

Fixpoint uint_digits (d : Decimal.uint) : pystr :=
  match d with
  | Decimal.Nil => []
  | Decimal.D0 d' => 48%N :: uint_digits d'
  | Decimal.D1 d' => 49%N :: uint_digits d'
  | Decimal.D2 d' => 50%N :: uint_digits d'
  | Decimal.D3 d' => 51%N :: uint_digits d'
  | Decimal.D4 d' => 52%N :: uint_digits d'
  | Decimal.D5 d' => 53%N :: uint_digits d'
  | Decimal.D6 d' => 54%N :: uint_digits d'
  | Decimal.D7 d' => 55%N :: uint_digits d'
  | Decimal.D8 d' => 56%N :: uint_digits d'
  | Decimal.D9 d' => 57%N :: uint_digits d'
  end.

(** [str(n)] for a non-negative integer. *)
Definition str_of_N (n : N) : pystr := uint_digits (N.to_uint n).

(** [%02d]-style zero padding to a width. *)
Definition zfill (width : nat) (s : pystr) : pystr :=
  repeat 48%N (width - List.length s) ++ s.

(** Truth value of a [str] or [None]: [None] and [""] are false. *)
Definition truthy (s : option pystr) : bool :=
  match s with
  | Some (_ :: _) => true
  | _ => false
  end.

(** [s or ""] *)
Definition or_empty (s : option pystr) : pystr :=
  match s with
  | Some (c :: t) => c :: t
  | _ => []
  end.

(** ** The document tree of BeautifulSoup *)

(** The classes of string nodes. *)
Inductive strclass :=
| NavigableString | CData | Comment | Declaration | Doctype
| ProcessingInstruction | Stylesheet | Script | TemplateString
| RubyTextString | RubyParenthesisString.

(** An attribute value is a [str], or a list of [str] for the multi-valued
    attributes ([class], [rel], [headers], ...). *)
Inductive attrval :=
| AttrStr (s : pystr)
| AttrList (l : list pystr).

Inductive node :=
| Str (cls : strclass) (s : pystr)
| Tag (name : pystr) (attrs : list (pystr * attrval)) (contents : list node).

(** The [BeautifulSoup] object: the root tag, named [[document]]. *)
Definition document (contents : list node) : node :=
  Tag (U "[document]") [] contents.

Definition strclass_eqb (a b : strclass) : bool :=
  match a, b with
  | NavigableString, NavigableString | CData, CData | Comment, Comment
  | Declaration, Declaration | Doctype, Doctype
  | ProcessingInstruction, ProcessingInstruction
  | Stylesheet, Stylesheet | Script, Script
  | TemplateString, TemplateString | RubyTextString, RubyTextString
  | RubyParenthesisString, RubyParenthesisString => true
  | _, _ => false
  end.

(** [tag.descendants]: every node below a tag, in document order. *)
Fixpoint descendants (n : node) : list node :=
  match n with
  | Str _ _ => []
  | Tag _ _ cs => flat_map (fun c => c :: descendants c) cs
  end.

(** [tag.attrs.get(key)] *)
Fixpoint attr_get (key : pystr) (attrs : list (pystr * attrval))
  : option attrval :=
  match attrs with
  | [] => None
  | (k, v) :: rest => if str_eqb k key then Some v else attr_get key rest
  end.

Definition tag_attr (key : pystr) (n : node) : option attrval :=
  match n with
  | Tag _ a _ => attr_get key a
  | Str _ _ => None
  end.

Definition is_named (name : pystr) (n : node) : bool :=
  match n with
  | Tag nm _ _ => str_eqb nm name
  | Str _ _ => false
  end.

(** What an attribute is matched against in [find(name, attr=...)]: a fixed
    string or a function of the attribute's value ([None] when absent). *)
Inductive matcher :=
| MStr (s : pystr)
| MFun (f : option pystr -> bool).

Definition matches_value (markup : option pystr) (against : matcher) : bool :=
  match against with
  | MFun f => f markup
  | MStr s => match markup with
              | None => false
              | Some x => str_eqb x s
              end
  end.

(** [SoupStrainer._matches]: a multi-valued attribute matches when one of
    its items does, or its items joined by spaces. *)
Definition _matches (markup : option attrval) (against : matcher) : bool :=
  match markup with
  | None => matches_value None against
  | Some (AttrStr s) => matches_value (Some s) against
  | Some (AttrList l) =>
      existsb (fun i => matches_value (Some i) against) l
      || matches_value (Some (join (U " ") l)) against
  end.

(** [tag.find_all(name)] *)
Definition find_all (name : pystr) (n : node) : list node :=
  filter (is_named name) (descendants n).

(** [tag.find(name)] *)
Definition find (name : pystr) (n : node) : option node :=
  hd_error (find_all name n).

(** [tag.find(name, key=against)] *)
Definition find_attr (name key : pystr) (against : matcher) (n : node)
  : option node :=
  hd_error (filter (fun t => is_named name t
                             && _matches (tag_attr key t) against)
                   (descendants n)).

(** The string classes [get_text] keeps, by the name of the tag it is
    called on. *)
Definition interesting_string_types (name : pystr) : list strclass :=
  if str_eqb name (U "rt") then [RubyTextString]
  else if str_eqb name (U "rp") then [RubyParenthesisString]
  else if str_eqb name (U "style") then [Stylesheet]
  else if str_eqb name (U "script") then [Script]
  else if str_eqb name (U "template") then [TemplateString]
  else [NavigableString; CData].

(** [tag._all_strings(strip)] *)
Definition _all_strings (do_strip : bool) (n : node) : list pystr :=
  match n with
  | Str _ _ => []
  | Tag nm _ _ =>
      flat_map
        (fun d =>
           match d with
           | Tag _ _ _ => []
           | Str cls s =>
               if existsb (strclass_eqb cls) (interesting_string_types nm)
               then if do_strip
                    then match strip s with
                         | [] => []
                         | s' => [s']
                         end
                    else [s]
               else []
           end)
        (descendants n)
  end.

(** [tag.get_text(separator, strip=...)] *)
Definition get_text (separator : pystr) (do_strip : bool) (n : node)
  : pystr :=
  join separator (_all_strings do_strip n).

(** Splitting of a [class] value on HTML white space. *)
Definition html_space (c : char) : bool :=
  (c =? 32)%N || (c =? 9)%N || (c =? 10)%N || (c =? 12)%N || (c =? 13)%N.

Fixpoint split_ws (cur : pystr) (s : pystr) : list pystr :=
  match s with
  | [] => match cur with [] => [] | _ => [rev cur] end
  | c :: t =>
      if html_space c
      then match cur with
           | [] => split_ws [] t
           | _ => rev cur :: split_ws [] t
           end
      else split_ws (c :: cur) t
  end.

Definition get_classes (n : node) : list pystr :=
  match tag_attr (U "class") n with
  | Some (AttrList l) => l
  | Some (AttrStr s) => split_ws [] s
  | None => []
  end.

Definition has_class (cls : pystr) (n : node) : bool :=
  match n with
  | Tag _ _ _ => existsb (str_eqb cls) (get_classes n)
  | Str _ _ => false
  end.

(** The compound selector [div.scedule]. *)
Definition is_div_scedule (n : node) : bool :=
  match n with
  | Tag nm _ _ => str_eqb (lower nm) (U "div") && has_class (U "scedule") n
  | Str _ _ => false
  end.

(** Tags below [n] that match [div.scedule .date], in document order;
    [under] tells whether [n] or a tag above it matches [div.scedule]. *)
Fixpoint select_date (under : bool) (n : node) : list node :=
  match n with
  | Str _ _ => []
  | Tag _ _ cs =>
      let under' := under || is_div_scedule n in
      flat_map
        (fun c =>
           (if under' && has_class (U "date") c then [c] else [])
             ++ select_date under' c)
        cs
  end.

(** [soup.select_one("div.scedule .date")] *)
Definition select_one_date (soup : node) : option node :=
  hd_error (select_date false soup).

(** ** The date pattern *)

(** A successful match of [(\d{2}\.\d{2})\s*\((.)\)]: its two groups. *)
Record Match := { group1 : pystr; group2 : pystr }.

(** The pattern matched at the start of [s]. [\s*] takes every white-space
    character: the next pattern character is [(], which is not one. [.] is
    any character but a newline. *)
Definition match_at (s : pystr) : option Match :=
  match s with
  | d1 :: d2 :: dot :: d3 :: d4 :: rest =>
      if Py_UNICODE_ISDECIMAL d1 && Py_UNICODE_ISDECIMAL d2
         && (dot =? 46)%N
         && Py_UNICODE_ISDECIMAL d3 && Py_UNICODE_ISDECIMAL d4
      then match lstrip rest with
           | lp :: c :: rp :: _ =>
               if (lp =? 40)%N && negb (c =? NL)%N && (rp =? 41)%N
               then Some {| group1 := [d1; d2; dot; d3; d4]; group2 := [c] |}
               else None
           | _ => None
           end
      else None
  | _ => None
  end.

(** [re.search(r"(\d{2}\.\d{2})\s*\((.)\)", s)]: the leftmost match. *)
Fixpoint re_search (s : pystr) : option Match :=
  match match_at s with
  | Some m => Some m
  | None => match s with
            | [] => None
            | _ :: t => re_search t
            end
  end.

(** ** Effects: exceptions, standard output and the clock *)

Inductive exn :=
| IndexError | AttributeError | ParserRejectedMarkup | OSError.

Inductive Result (A : Type) :=
| Ok (a : A)
| Raise (e : exn).
Arguments Ok {A} a.
Arguments Raise {A} e.

Definition rbind {A B} (r : Result A) (k : A -> Result B) : Result B :=
  match r with
  | Ok a => k a
  | Raise e => Raise e
  end.

(** [stdout]: the lines printed so far, oldest first. [clock]: the time
    [datetime.now] returns, in seconds since the epoch (UTC). *)
Record World := { stdout : list pystr; clock : Z }.

Definition M (A : Type) := World -> Result A * World.

Definition ret {A} (a : A) : M A := fun w => (Ok a, w).

Definition bind {A B} (m : M A) (k : A -> M B) : M B :=
  fun w => match m w with
           | (Ok a, w') => k a w'
           | (Raise e, w') => (Raise e, w')
           end.

Definition lift {A} (r : Result A) : M A := fun w => (r, w).

Definition print (line : pystr) : M unit :=
  fun w => (Ok tt, {| stdout := stdout w ++ [line]; clock := clock w |}).

Definition now_utc : M Z := fun w => (Ok (clock w), w).

Declare Scope py_scope.
Delimit Scope py_scope with py.
Notation "x <- c ;; k" := (bind c (fun x => k))
  (at level 61, c at next level, right associativity) : py_scope.
Notation "c ;;; k" := (bind c (fun _ => k))
  (at level 61, right associativity) : py_scope.
Notation "x <~ c ;; k" := (rbind c (fun x => k))
  (at level 61, c at next level, right associativity) : py_scope.

(** [l[i]] *)
Definition getitem {A} (l : list A) (i : nat) : Result A :=
  match nth_error l i with
  | Some a => Ok a
  | None => Raise IndexError
  end.

(** [l.pop(0)]: the first element and the list left. *)
Definition pop0 {A} (l : list A) : Result (A * list A) :=
  match l with
  | [] => Raise IndexError
  | a :: rest => Ok (a, rest)
  end.

Local Open Scope py_scope.

(** ** [parse_html] *)

(** One entry of [menus]; [md] and [weekday] are [None] until a date cell
    has been seen. *)
Record menu := {
  md : option pystr;
  weekday : option pystr;
  meal : pystr;
  title : pystr;
  items : list pystr;
  info : pystr
}.

(** The loop variables [current_md] and [current_weekday]. *)
Definition day_state := (option pystr * option pystr)%type.

(** Lines 60-70: the table by its id, else by its summary, else the first
    table whose caption has the phrase. *)
Definition table_by_id (soup : node) : option node :=
  find_attr (U "table") (U "id") (MStr (U "listTable")) soup.

Definition summary_matches (s : option pystr) : bool :=
  truthy s && match s with
              | Some v => contains (U "일주일간의 식단을") v
              | None => false
              end.

Definition table_by_summary (soup : node) : option node :=
  find_attr (U "table") (U "summary") (MFun summary_matches) soup.

Definition caption_matches (t : node) : bool :=
  match find (U "caption") t with
  | Some cap => contains (U "일주일간 식단 안내") (get_text [] false cap)
  | None => false
  end.

Definition table_by_caption (soup : node) : option node :=
  List.find caption_matches (find_all (U "table") soup).

Definition locate_table (soup : node) : option node :=
  let table := table_by_id soup in
  let table := match table with
               | Some t => Some t
               | None => table_by_summary soup
               end in
  match table with
  | Some t => Some t
  | None => table_by_caption soup
  end.

(** Lines 92-99: the date and the weekday read from a [th]. *)
Definition header_date (th : node) : day_state :=
  let date_text := get_text (U " ") true th in
  match re_search date_text with
  | Some m => (Some (group1 m), Some (group2 m))
  | None => (Some (strip date_text), Some [])
  end.

(** Lines 90-99. *)
Definition date_update (st : day_state) (tr : node) : day_state :=
  match find (U "th") tr with
  | Some th => header_date th
  | None => st
  end.

(** Lines 112-113: the lines of the content cell. *)
Definition content_lines (content_td : node) : list pystr :=
  let menu_text := get_text [NL] true content_td in
  filter (fun l => match l with [] => false | _ => true end)
         (map strip (split NL menu_text)).

(** Lines 106-126: the entry built from the cells of a row. *)
Definition row_menu (st : day_state) (tds : list node) : Result menu :=
  td0 <~ getitem tds 0 ;;
  let meal_type := get_text [] true td0 in
  td1 <~ getitem tds 1 ;;
  let title := get_text [] true td1 in
  content_td <~ getitem tds 2 ;;
  td3 <~ getitem tds 3 ;;
  let info := get_text [] true td3 in
  let items := content_lines content_td in
  ti <~ (if str_eqb title (U "-")
            && match items with [] => false | _ => true end
         then pop0 items
         else Ok (title, items)) ;;
  Ok {| md := fst st; weekday := snd st; meal := meal_type;
        title := fst ti; items := snd ti; info := info |}.

(** Lines 85-126: the body of the loop over the rows, on [menus] and the
    two loop variables. *)
Definition row_body (acc : list menu * day_state) (tr : node)
  : Result (list menu * day_state) :=
  let '(menus, st) := acc in
  match find (U "td") tr, find (U "th") tr with
  | None, None => Ok (menus, st)
  | _, _ =>
      let st := date_update st tr in
      let tds := find_all (U "td") tr in
      if (List.length tds <? 4)%nat then Ok (menus, st)
      else m <~ row_menu st tds ;; Ok (menus ++ [m], st)
  end.

(** [for tr in ...: body] *)
Fixpoint for_rows (acc : list menu * day_state) (trs : list node)
  : Result (list menu * day_state) :=
  match trs with
  | [] => Ok acc
  | tr :: rest => acc' <~ row_body acc tr ;; for_rows acc' rest
  end.

(** Lines 50-129: [parse_html] from the parsed document on. *)
Definition parse_soup (soup : node) : M (option pystr * list menu) :=
  week_range <-
    match select_one_date soup with
    | Some date_el =>
        let week_range := get_text [] true date_el in
        print (U "[INFO] Week range: " ++ week_range) ;;;
        ret (Some week_range)
    | None =>
        print (U "[WARN] Week range (.scedule .date) not found") ;;;
        ret None
    end ;;
  match locate_table soup with
  | None =>
      print (U "[ERROR] 메뉴 테이블을 찾지 못했습니다.") ;;;
      ret (week_range, [])
  | Some table =>
      print (U "[INFO] 메뉴 테이블 발견") ;;;
      let tbody := match find (U "tbody") table with
                   | Some t => t
                   | None => table
                   end in
      acc <- lift (for_rows ([], (None, None)) (find_all (U "tr") tbody)) ;;
      let menus := fst acc in
      print (U "[DEBUG] Parsed " ++ str_of_N (N.of_nat (List.length menus))
               ++ U " menu rows from table") ;;;
      ret (week_range, menus)
  end.

Section Parser.

(** [BeautifulSoup(html, "html.parser")]: the parser of the library, from
    the text of a document to its tree, or to the exception it raises on a
    text it refuses. *)
Variable BeautifulSoup : pystr -> Result node.

(** Line 48 has no handler: what the parser raises, [parse_html] raises. *)
Definition parse_html (html : pystr) : M (option pystr * list menu) :=
  soup <- lift (BeautifulSoup html) ;;
  parse_soup soup.

End Parser.

(** ** [generate_html] *)

(** Days since 1970-01-01 to the civil date (year, month, day) of the
    proleptic Gregorian calendar, as [datetime] computes it. *)
Definition civil_from_days (days : Z) : Z * Z * Z :=
  let z := (days + 719468)%Z in
  let era := (z / 146097)%Z in
  let doe := (z - era * 146097)%Z in
  let yoe := ((doe - doe / 1460 + doe / 36524 - doe / 146096) / 365)%Z in
  let doy := (doe - (365 * yoe + yoe / 4 - yoe / 100))%Z in
  let mp := ((5 * doy + 2) / 153)%Z in
  let d := (doy - (153 * mp + 2) / 5 + 1)%Z in
  let m := (if mp <? 10 then mp + 3 else mp - 9)%Z in
  let y := (yoe + era * 400 + (if m <=? 2 then 1 else 0))%Z in
  (y, m, d).

Definition str_of_Z (z : Z) : pystr := str_of_N (Z.to_N z).

(** [t.strftime("%Y-%m-%d %H:%M")] for a time [t] in seconds since the
    epoch; the seconds and microseconds of the clock do not show. *)
Definition strftime (t : Z) : pystr :=
  let '(y, m, d) := civil_from_days (t / 86400) in
  let secs := (t mod 86400)%Z in
  zfill 4 (str_of_Z y) ++ U "-" ++ zfill 2 (str_of_Z m) ++ U "-"
    ++ zfill 2 (str_of_Z d) ++ U " " ++ zfill 2 (str_of_Z (secs / 3600))
    ++ U ":" ++ zfill 2 (str_of_Z (secs mod 3600 / 60)).

(** [html.escape(s, quote=True)] *)
Definition escape (s : pystr) : pystr :=
  flat_map (fun c =>
              if (c =? 38)%N then U "&amp;"
              else if (c =? 60)%N then U "&lt;"
              else if (c =? 62)%N then U "&gt;"
              else if (c =? 34)%N then U "&quot;"
              else if (c =? 39)%N then U "&#x27;"
              else [c]) s.

(** The local function [esc] of [generate_html]. *)
Definition esc (s : option pystr) : pystr :=
  escape (match s with Some v => v | None => [] end).

(** Equality of [str | None] values and of the keys [(md, weekday)]. *)
Definition opt_eqb (a b : option pystr) : bool :=
  match a, b with
  | None, None => true
  | Some x, Some y => str_eqb x y
  | _, _ => false
  end.

Definition key_eqb (a b : day_state) : bool :=
  opt_eqb (fst a) (fst b) && opt_eqb (snd a) (snd b).

(** [grouped]: a [defaultdict(list)], as the list of its entries in the
    order the keys were first used. *)
Definition groups := list (day_state * list menu).

(** [grouped[k].append(m)] *)
Fixpoint group_append (g : groups) (k : day_state) (m : menu) : groups :=
  match g with
  | [] => [(k, [m])]
  | (k', ms) :: rest =>
      if key_eqb k' k then (k', ms ++ [m]) :: rest
      else (k', ms) :: group_append rest k m
  end.

(** [grouped[k]] *)
Fixpoint group_get (g : groups) (k : day_state) : list menu :=
  match g with
  | [] => []
  | (k', ms) :: rest => if key_eqb k' k then ms else group_get rest k
  end.

(** Lines 140-142. *)
Definition group_menus (menus : list menu) : groups :=
  fold_left (fun g m => group_append g (md m, weekday m) m) menus [].

(** [sorted(keys, key=lambda x: x[0] or "")]: a stable sort. *)
Definition sort_key (k : day_state) : pystr := or_empty (fst k).

Fixpoint insert_key (k : day_state) (l : list day_state) : list day_state :=
  match l with
  | [] => [k]
  | k' :: rest =>
      if str_leb (sort_key k) (sort_key k') then k :: l
      else k' :: insert_key k rest
  end.

Fixpoint sorted (l : list day_state) : list day_state :=
  match l with
  | [] => []
  | k :: rest => insert_key k (sorted rest)
  end.

(** Lines 162-473 and 562-629: the style sheet and the script, fixed text. *)
Definition style_text : pystr :=
  (U "
:root {
  --mju-blue: #005a9c;
  --mju-blue-light: #e3f2fd;
  --card-radius: 10px;
}

/* Reset-ish */
* { box-sizing: border-box; }

body { 
  font-family: 'Pretendard', -apple-system, BlinkMacSystemFont, " ++ DQ ++ U "Segoe UI" ++ DQ ++ U ", Roboto,
               " ++ DQ ++ U "Helvetica Neue" ++ DQ ++ U ", Arial, " ++ DQ ++ U "Noto Sans" ++ DQ ++ U ", sans-serif, " ++ DQ ++ U "Apple Color Emoji" ++ DQ ++ U ",
               " ++ DQ ++ U "Segoe UI Emoji" ++ DQ ++ U ", " ++ DQ ++ U "Segoe UI Symbol" ++ DQ ++ U ", " ++ DQ ++ U "Noto Color Emoji" ++ DQ ++ U ";
  max-width: 1000px; 
  margin: 0 auto; 
  padding: 16px; 
  background: #f0f2f5; 
  color: #333;
}

h1 { 
  font-size: 2.0rem; 
  color: #2c3e50; 
  margin-bottom: 0.5rem; 
  text-align: center;
}

.meta { 
  color: #7f8c8d; 
  font-size: 0.9rem; 
  text-align: center; 
  margin-bottom: 1.0rem; 
  line-height: 1.4;
}

.today-summary {
  font-size: 0.9rem;
  margin: 0 auto 1.2rem auto;
  padding: 8px 10px;
  border-radius: 8px;
  background: #fff8e1;
  border: 1px solid #ffe082;
  max-width: 600px;
}

/* 전체 레이아웃: 상단/좌측 요일 탭 + 우측 패널 */
.week-layout {
  display: flex;
  flex-direction: column;
  gap: 12px;
}

/* 요일 탭 영역 */
.day-tabs {
  display: flex;
  gap: 8px;
  overflow-x: auto;
  padding-bottom: 6px;
  margin-bottom: 10px;  /* 살짝 더 여유 */
  border-bottom: 1px solid #e0e0e0;
}

.day-tabs::-webkit-scrollbar {
  height: 4px;
}
.day-tabs::-webkit-scrollbar-thumb {
  background: #ccc;
  border-radius: 999px;
}

/* 요일 탭 버튼 (크기 줄인 버전) */
.day-tab {
  flex: 0 0 auto;
  border: 1px solid #dde1e7;
  border-radius: 8px;       /* 살짝 둥근 직사각형 */
  padding: 4px 8px 6px 8px;
  background: #ffffff;
  cursor: pointer;
  font-size: 0.85rem;
  display: inline-flex;
  flex-direction: column;
  align-items: flex-start;
  gap: 1px;
  min-width: 64px;
  transition: background 0.15s ease, border-color 0.15s ease,
              transform 0.1s, box-shadow 0.1s;
  color: #333;
}

.day-tab:hover {
  background: #f5f7fb;
  transform: translateY(-1px);
}

.day-tab:active {
  transform: translateY(0);
  box-shadow: inset 0 1px 2px rgba(0,0,0,0.08);
}

.day-tab .weekday {
  font-weight: 600;
  font-size: 0.80rem;
  padding: 2px 8px;
  border-radius: 999px;
  background: #f1f5f9;
  color: #111827;
}

.day-tab .date {
  font-size: 0.72rem;
  color: #6b7280;
}

/* 오늘 요일 탭 표시 (선택 안 되어 있을 때) */
.day-tab.is-today {
  border-color: #ef4444;          /* 빨간 테두리 */
  background: #fff5f5;
}
.day-tab.is-today .weekday {
  background: #fee2e2;
  color: #b91c1c;
}

/* 오늘 탭에 은은한 pulse 애니메이션 (선택 안 된 상태일 때만) */
@keyframes pulse-border {
  0%   { box-shadow: 0 0 0 0 rgba(239,68,68,0.45); }
  100% { box-shadow: 0 0 0 7px rgba(239,68,68,0); }
}

.day-tab.is-today:not(.active) {
  animation: pulse-border 1.6s infinite;
}

/* 현재 선택된 요일 탭(누른 상태) */
.day-tab.active {
  background: var(--mju-blue);
  border-color: var(--mju-blue);
  color: #ffffff;
}
.day-tab.active .weekday {
  background: #ffffff;
  color: var(--mju-blue);
}
.day-tab.active .date {
  color: #dbeafe;
}

/* " ++ DQ ++ U "오늘 + 선택됨" ++ DQ ++ U "인 경우 → 파란 배경 + 빨간 테두리 */
.day-tab.is-today.active {
  border-color: #ef4444;            /* 얇은 빨간 테두리 */
  box-shadow: 0 0 0 1px #ef4444;    /* 살짝 더 강조 */
  animation: none;                  /* pulse 중단 */
}

/* 요일별 패널 영역 */
.day-panels {
  margin-top: 12px;   /* 탭 아래 여백 늘림 (윗부분 잘려 보이는 느낌 완화) */
}

/* 패널 입장 애니메이션 */
@keyframes fade-slide {
  0%   { opacity: 0; transform: translateY(6px); }
  100% { opacity: 1; transform: translateY(0); }
}

.day-panel {
  display: none;
}

.day-panel.active {
  display: block;
  animation: fade-slide 0.28s ease-out;  /* 전환 속도 살짝 느리게 */
}

.day-panel-header {
  display: flex;
  justify-content: space-between;
  align-items: baseline;
  gap: 8px;
  margin-bottom: 10px;  /* 헤더 아래도 여유 조금 추가 */
}

.day-panel-header h2 {
  margin: 0;
  font-size: 1.15rem;
}

.day-panel-header .sub {
  font-size: 0.8rem;
  color: #777;
}

/* 끼니 카드 */
.meal-card {
  background: #fff;
  border-radius: var(--card-radius);
  padding: 10px 12px;
  margin-bottom: 10px;
  box-shadow: 0 1px 3px rgba(0,0,0,0.06);
  border: 1px solid #e5e7eb;
  position: relative;
  transition: transform 0.18s ease, box-shadow 0.18s ease;
}

/* 카드 hover 애니메이션 */
.meal-card:hover {
  transform: translateY(-2px);
  box-shadow: 0 4px 10px rgba(0,0,0,0.12);
}

/* 상단 색띠로 점심/저녁 구분 */
.meal-card::before {
  content: " ++ DQ ++ DQ ++ U ";
  position: absolute;
  top: 0;
  left: 0;
  height: 3px;
  width: 100%;
  border-radius: var(--card-radius) var(--card-radius) 0 0;
  background: #e5e7eb;
}
.meal-card.lunch::before {
  background: #facc15;  /* 노랑 (점심) */
}
.meal-card.dinner::before {
  background: #6366f1;  /* 보라 (저녁) */
}

.meal-card-header {
  display: flex;
  justify-content: space-between;
  align-items: center;
  gap: 8px;
  margin-bottom: 4px;
}

.meal-type {
  font-weight: 600;
  font-size: 0.95rem;
  display: flex;
  align-items: center;
  gap: 4px;
}

.meal-type .emoji {
  font-size: 1.1rem;
}

.meal-info {
  font-size: 0.75rem;
  color: #999;
}

/* 메인디쉬 따로 박스 없이, 첫 줄만 살짝 강조 */
.meal-items {
  margin: 4px 0 0 0;
  padding-left: 18px;
  font-size: 0.9rem;
}

.meal-items li {
  margin: 2px 0;
  color: #333;
}

.meal-items li:first-child {
  font-weight: 600;
  color: #111827;
}

.no-menu {
  color: #999;
  font-size: 0.9rem;
}

/* 하단 푸터 */
footer {
  margin-top: 20px;
  font-size: 0.8rem;
  color: #777;
  text-align: center;
}

/* 데스크톱: 좌측 탭 / 우측 내용 2단 */
@media (min-width: 900px) {
  .week-layout {
    flex-direction: row;
    align-items: flex-start;
  }

  .day-tabs {
    flex-direction: column;
    border-bottom: none;
    border-right: 1px solid #e0e0e0;
    padding-right: 8px;
    margin-right: 8px;
    max-width: 150px;
  }

  .day-tab {
    width: 100%;
  }

  .day-panels {
    flex: 1;
    padding-left: 8px;
  }
}
").

Definition script_text : pystr :=
  (U "
<script>
document.addEventListener('DOMContentLoaded', function() {
    try {
        const tabs = Array.from(document.querySelectorAll('.day-tab'));
        const panels = Array.from(document.querySelectorAll('.day-panel'));
        const summary = document.getElementById('today-summary');

        if (tabs.length === 0 || panels.length === 0) {
            if (summary) {
                summary.textContent = '이번 주 식단 정보가 없습니다.';
            }
            return;
        }

        // KST 기준 오늘 날짜 계산 → " ++ DQ ++ U "MM.DD" ++ DQ ++ U "
        const now = new Date();
        const utc = now.getTime() + now.getTimezoneOffset() * 60000;
        const kst = new Date(utc + 9 * 3600 * 1000);
        const month = String(kst.getMonth() + 1).padStart(2, '0');
        const day = String(kst.getDate()).padStart(2, '0');
        const todayMD = `${month}.${day}`;

        function setActive(dateStr) {
            tabs.forEach(tab => {
                tab.classList.toggle('active', tab.dataset.date === dateStr);
            });
            panels.forEach(panel => {
                panel.classList.toggle('active', panel.dataset.date === dateStr);
            });
        }

        // 기본 활성 날짜: 오늘이 있으면 오늘, 없으면 첫 번째
        let activeDate = null;
        const todayTab = document.querySelector(`.day-tab[data-date=" ++ DQ ++ U "${todayMD}" ++ DQ ++ U "]`);
        if (todayTab) {
            activeDate = todayMD;
        } else {
            activeDate = tabs[0].dataset.date;
        }

        setActive(activeDate);

        // 오늘 요일 탭 표시 + 안내 문구
        if (todayTab) {
            todayTab.classList.add('is-today');
            if (summary) {
                summary.textContent = `오늘은 ${month}월 ${day}일입니다. 해당 요일은 빨간색으로 표시되어 있습니다!`;
            }
        } else if (summary) {
            summary.textContent = '오늘 날짜는 이번 주 식단 범위에 없어서, 첫 번째 요일이 기본으로 선택되었습니다.';
        }

        // 탭 클릭 이벤트
        tabs.forEach(tab => {
            tab.addEventListener('click', () => {
                const dateStr = tab.dataset.date;
                setActive(dateStr);
            });
        });
    } catch (e) {
        console.error('Error initializing tabs:', e);
    }
});
</script>
").

(** Lines 150-477: the parts before the [meta] line. *)
Definition head_parts : list pystr :=
  [ (U "<!doctype html>");
    (U "<html lang=" ++ DQ ++ U "ko" ++ DQ ++ U ">");
    (U "<head>");
    (U "  <meta charset=" ++ DQ ++ U "utf-8" ++ DQ ++ U ">");
    (U "  <title>명지대 자연캠 교직원식당 식단</title>");
    (U "  <meta name=" ++ DQ ++ U "viewport" ++ DQ ++ U " content=" ++ DQ ++ U "width=device-width, initial-scale=1" ++ DQ ++ U ">");
    (U "  <link rel=" ++ DQ ++ U "stylesheet" ++ DQ ++ U " href=" ++ DQ ++ U "https://cdn.jsdelivr.net/gh/orioncactus/pretendard/dist/web/static/pretendard.css" ++ DQ ++ U ">");
    (U "  <style>");
    style_text;
    (U "  </style>");
    (U "</head>");
    (U "<body>");
    (U "<h1>🍽️ 교직원 식단 메뉴</h1>") ].

(** Lines 479-483: the text of the [meta] line. *)
Definition meta_line (week_range : option pystr) (updated_kst : pystr)
  : pystr :=
  if truthy week_range
  then (U "<span>") ++ esc week_range ++ (U "</span> · 마지막 업데이트: ")
         ++ updated_kst ++ (U " (KST)")
  else (U "마지막 업데이트: ") ++ updated_kst ++ (U " (KST)").

(** Lines 492-500: the tab of a day; none for a key without [md]. *)
Definition day_tab (k : day_state) : list pystr :=
  let '(md, weekday) := k in
  if negb (truthy md) then []
  else [ (U "<button class=" ++ DQ ++ U "day-tab" ++ DQ ++ U " type=" ++ DQ ++ U "button" ++ DQ ++ U " data-date=" ++ DQ) ++ esc md
           ++ (DQ ++ U ">") ++ (U "<span class=" ++ DQ ++ U "weekday" ++ DQ ++ U ">") ++ esc weekday
           ++ (U "요일</span>") ++ (U "<span class=" ++ DQ ++ U "date" ++ DQ ++ U ">") ++ esc md ++ (U "</span>")
           ++ (U "</button>") ].

(** Lines 520-552: the card of one entry. *)
Definition meal_card (md : option pystr) (m : menu) : list pystr :=
  let is_lunch := str_eqb (meal m) (U "점심") in
  let meal_emoji := if is_lunch then (U "☀️") else (U "🌙") in
  let meal_class := if is_lunch then (U "lunch") else (U "dinner") in
  let info := strip (or_empty (Some (info m))) in
  let title := strip (or_empty (Some (title m))) in
  let items := items m in
  let full_items :=
    (if truthy (Some title) && negb (str_eqb title (U "-")) then [title] else [])
      ++ items in
  [ (U "<article class=" ++ DQ ++ U "meal-card ") ++ meal_class ++ (DQ ++ U " data-date=" ++ DQ) ++ esc md
      ++ (DQ ++ U ">");
    (U "<div class=" ++ DQ ++ U "meal-card-header" ++ DQ ++ U ">");
    (U "<div class=" ++ DQ ++ U "meal-type" ++ DQ ++ U ">");
    (U "<span class=" ++ DQ ++ U "emoji" ++ DQ ++ U ">") ++ meal_emoji ++ (U "</span>");
    (U "<span class=" ++ DQ ++ U "label" ++ DQ ++ U ">") ++ esc (Some (meal m)) ++ (U "</span>");
    (U "</div>") ]
  ++ (if truthy (Some info) && negb (str_eqb info (U "-"))
      then [ (U "<div class=" ++ DQ ++ U "meal-info" ++ DQ ++ U ">") ++ esc (Some info) ++ (U "</div>") ]
      else [])
  ++ [ (U "</div>") ]
  ++ (match full_items with
      | [] => [ (U "<p class=" ++ DQ ++ U "no-menu" ++ DQ ++ U ">세부 메뉴 없음</p>") ]
      | _ => [ (U "<ul class=" ++ DQ ++ U "meal-items" ++ DQ ++ U ">") ]
             ++ map (fun item => (U "<li>") ++ esc (Some item) ++ (U "</li>"))
                    full_items
             ++ [ (U "</ul>") ]
      end)
  ++ [ (U "</article>") ].

(** Lines 505-554: the panel of a day; none for a key without [md]. *)
Definition day_panel (grouped : groups) (k : day_state) : list pystr :=
  let '(md, weekday) := k in
  if negb (truthy md) then []
  else
    [ (U "<section class=" ++ DQ ++ U "day-panel" ++ DQ ++ U " data-date=" ++ DQ) ++ esc md ++ (DQ ++ U ">");
      (U "<div class=" ++ DQ ++ U "day-panel-header" ++ DQ ++ U ">");
      (U "<h2>") ++ esc md ++ (U " ") ++ esc weekday ++ (U "요일</h2>");
      (U "<span class=" ++ DQ ++ U "sub" ++ DQ ++ U ">점심 · 저녁 식단</span>");
      (U "</div>") ]
    ++ (match group_get grouped (md, weekday) with
        | [] => [ (U "<p class=" ++ DQ ++ U "no-menu" ++ DQ ++ U ">등록된 메뉴가 없습니다.</p>") ]
        | day_menus => flat_map (meal_card md) day_menus
        end)
    ++ [ (U "</section>") ].

(** Lines 486-631: the parts after the [meta] line. *)
Definition body_parts (grouped : groups) (day_keys : list day_state)
  : list pystr :=
  [ (U "<div id=" ++ DQ ++ U "today-summary" ++ DQ ++ U " class=" ++ DQ ++ U "today-summary" ++ DQ ++ U "></div>");
    (U "<div class=" ++ DQ ++ U "week-layout" ++ DQ ++ U ">");
    (U "<div class=" ++ DQ ++ U "day-tabs" ++ DQ ++ U " id=" ++ DQ ++ U "day-tabs" ++ DQ ++ U ">") ]
  ++ flat_map day_tab day_keys
  ++ [ (U "</div>");
       (U "<div class=" ++ DQ ++ U "day-panels" ++ DQ ++ U " id=" ++ DQ ++ U "day-panels" ++ DQ ++ U ">") ]
  ++ flat_map (day_panel grouped) day_keys
  ++ [ (U "</div>");
       (U "</div>");
       (U "<footer>made by 권민관 for Hansae</footer>");
       script_text;
       (U "</body></html>") ].

(** The document for a given text of the update time. *)
Definition render_at (updated_kst : pystr) (week_range : option pystr)
  (menus : list menu) : pystr :=
  let grouped := group_menus menus in
  let day_keys := sorted (map fst grouped) in
  join [NL]
    (head_parts
       ++ [ (U "<p class=" ++ DQ ++ U "meta" ++ DQ ++ U ">") ++ meta_line week_range updated_kst
              ++ (U "</p>") ]
       ++ body_parts grouped day_keys).

Definition generate_html (week_range : option pystr) (menus : list menu)
  : M pystr :=
  now <- now_utc ;;
  let updated_kst := strftime (now + 9 * 3600)%Z in
  ret (render_at updated_kst week_range menus).

(** ** Readings used in the statements *)

(** What the date pattern describes: [text] is [pre], then two digits, a dot
    and two digits ([g1]), white space, and one character other than a
    newline ([g2]) between parentheses, then [post]. *)
Definition date_pattern (pre g1 g2 text : pystr) : Prop :=
  exists d1 d2 d3 d4 ws c post,
    Py_UNICODE_ISDECIMAL d1 = true /\ Py_UNICODE_ISDECIMAL d2 = true /\
    Py_UNICODE_ISDECIMAL d3 = true /\ Py_UNICODE_ISDECIMAL d4 = true /\
    forallb Py_UNICODE_ISSPACE ws = true /\ c <> NL /\
    g1 = [d1; d2; 46%N; d3; d4] /\ g2 = [c] /\
    text = pre ++ g1 ++ ws ++ [40%N] ++ g2 ++ [41%N] ++ post.

(** The leftmost place where the pattern matches. *)
Definition leftmost_date (pre g1 g2 text : pystr) : Prop :=
  date_pattern pre g1 g2 text /\
  forall pre' g1' g2', date_pattern pre' g1' g2' text ->
                       (List.length pre <= List.length pre')%nat.

(** The rows the loop of [parse_html] walks: the [tr] tags of the table. *)
Definition table_rows (soup : node) : list node :=
  match locate_table soup with
  | None => []
  | Some table =>
      find_all (U "tr") match find (U "tbody") table with
                        | Some t => t
                        | None => table
                        end
  end.

(** The text of a cell, as lines 106-109 read it. *)
Definition cell_text (td : node) : pystr := get_text [] true td.

(** The three tests of the locator on a node of the document. *)
Definition id_matches (t : node) : bool :=
  is_named (U "table") t
  && _matches (tag_attr (U "id") t) (MStr (U "listTable")).

Definition summary_attr_matches (t : node) : bool :=
  is_named (U "table") t
  && _matches (tag_attr (U "summary") t) (MFun summary_matches).

Definition caption_table_matches (t : node) : bool :=
  is_named (U "table") t && caption_matches t.

(** A record with a date: [md] is neither [None] nor empty. *)
Definition has_md (m : menu) : bool := truthy (md m).

(** ** Sample documents *)

Definition text (s : string) : node := Str NavigableString (U s).
Definition el (name : string) (contents : list node) : node :=
  Tag (U name) [] contents.
Definition br : node := el "br" [].
Definition listTable (rows : list node) : node :=
  document [Tag (U "table") [(U "id", AttrStr (U "listTable"))]
                [el "tbody" rows]].

Definition world0 : World := {| stdout := []; clock := 0 |}.

(** [<tr><th>11.10 (월)</th><td>점심</td><td>-</td>
    <td>된장찌개<br>김치<br>밥</td><td>-</td></tr>] *)
Definition row_lunch : node :=
  el "tr" [el "th" [text "11.10 (월)"]; el "td" [text "점심"];
           el "td" [text "-"];
           el "td" [text "된장찌개"; br; text "김치"; br; text "밥"];
           el "td" [text "-"]].

(** [<tr><td>저녁</td><td>메인메뉴</td><td>비빔밥<br>계란국</td>
    <td>비고</td></tr>] *)
Definition row_dinner : node :=
  el "tr" [el "td" [text "저녁"]; el "td" [text "메인메뉴"];
           el "td" [text "비빔밥"; br; text "계란국"];
           el "td" [text "비고"]].

(** [<tr><td>점심</td><td>-</td><td></td><td>-</td></tr>]: a row whose
    content cell is empty. *)
Definition row_no_content : node :=
  el "tr" [el "td" [text "점심"]; el "td" [text "-"]; el "td" [];
           el "td" [text "-"]].

(** [<tr><th>11.11 (화)</th></tr>]: a date cell and no data cell. *)
Definition row_date_only : node :=
  el "tr" [el "th" [text "11.11 (화)"]].

(** [<tr><th>휴일</th><td>점심</td></tr>] *)
Definition row_holiday : node :=
  el "tr" [el "th" [text "휴일"]; el "td" [text "점심"]].

(** A record without a date. *)
Definition menu_no_date : menu :=
  {| md := None; weekday := None; meal := U "점심"; title := U "된장찌개";
     items := [U "김치"; U "밥"]; info := U "-" |}.

(** The values the loop variables can hold after some of the rows [trs],
    starting from [st]: [st] itself, or the date read from a [th] of one of
    the rows. *)
Definition carried (st : day_state) (trs : list node) (st' : day_state)
  : Prop :=
  st' = st \/
  exists tr th, In tr trs /\ find (U "th") tr = Some th /\ st' = header_date th.

(** [m] is the entry built from the row [tr] under the loop variables
    [st]. *)
Definition built_from (st : day_state) (tr : node) (m : menu) : Prop :=
  exists td0 td1 td2 td3 rest,
    find_all (U "td") tr = td0 :: td1 :: td2 :: td3 :: rest /\
    row_menu st (td0 :: td1 :: td2 :: td3 :: rest) = Ok m.


(** ** [fetch_html] and [main] *)

Definition URL : pystr := U "https://www.mju.ac.kr/diet/mjukr/7/view.do".

(** What [requests.get] comes back with: a response, or a
    [requests.RequestException] and its text. *)
Inductive reply :=
| Response (status_code : N) (reason url text : pystr)
| RequestException (message : pystr).

(** [resp.raise_for_status()]: the text of the [HTTPError] it raises, or
    [None] when it raises nothing. *)
Definition raise_for_status (status_code : N) (reason url : pystr)
  : option pystr :=
  if in_range 400 100 status_code
  then Some (str_of_N status_code ++ U " Client Error: " ++ reason
               ++ U " for url: " ++ url)
  else if in_range 500 100 status_code
  then Some (str_of_N status_code ++ U " Server Error: " ++ reason
               ++ U " for url: " ++ url)
  else None.

(** What a run acts on: standard output and the clock, the reply the
    network gives to a request for a URL, the working directory as its
    files (path and text, the newest binding first) and the directories
    made, and the error, if any, with which the operating system refuses
    to make or to write a path. *)
Record Env := {
  world : World;
  network : pystr -> reply;
  files : list (pystr * pystr);
  dirs : list pystr;
  os_error : pystr -> option exn
}.

Definition Run (A : Type) := Env -> Result A * Env.

Definition run_ret {A} (a : A) : Run A := fun e => (Ok a, e).

Definition run_bind {A B} (m : Run A) (k : A -> Run B) : Run B :=
  fun e => match m e with
           | (Ok a, e') => k a e'
           | (Raise x, e') => (Raise x, e')
           end.

(** A computation on the world, run inside an environment. *)
Definition in_world {A} (m : M A) : Run A :=
  fun e => let '(r, w) := m (world e) in
           (r, {| world := w; network := network e; files := files e;
                  dirs := dirs e; os_error := os_error e |}).

Notation "x <<- c ;; k" := (run_bind c (fun x => k))
  (at level 61, c at next level, right associativity) : py_scope.


(** [os.makedirs(path, exist_ok=True)] *)
Definition makedirs (path : pystr) : Run unit :=
  fun e =>
    match os_error e path with
    | Some x => (Raise x, e)
    | None =>
        (Ok tt,
         {| world := world e; network := network e; files := files e;
            dirs := if existsb (str_eqb path) (dirs e) then dirs e
                    else path :: dirs e;
            os_error := os_error e |})
    end.

(** [open(path, "w")] and [f.write(text)] on the file: the file holds
    [text] and nothing else, unless the system refuses the path. *)
Definition write_file (path text : pystr) : Run unit :=
  fun e =>
    match os_error e path with
    | Some x => (Raise x, e)
    | None =>
        (Ok tt,
         {| world := world e; network := network e;
            files := (path, text) :: files e; dirs := dirs e;
            os_error := os_error e |})
    end.

(** Lines 16-28. *)
Definition fetch_html : Run pystr :=
  fun e =>
    let failed (message : pystr) :=
      in_world (print (U "[ERROR] fetch_html failed: " ++ message) ;;;
                ret []) e in
    match network e URL with
    | RequestException message => failed message
    | Response status_code reason url text =>
        match raise_for_status status_code reason url with
        | Some message => failed message
        | None => (Ok text, e)
        end
    end.

(** [str(week_range)] in an f-string. *)
Definition str_of_optional (s : option pystr) : pystr :=
  match s with
  | Some v => v
  | None => U "None"
  end.

Section Program.

Variable BeautifulSoup : pystr -> Result node.

(** Lines 637-651. The file is opened, and so emptied, before
    [generate_html] runs. Nothing is caught here: an exception of the
    parser or of the operating system ends the run. *)
Definition main : Run unit :=
  html <<- fetch_html ;;
  match html with
  | [] => in_world (print (U "[ERROR] No HTML, abort."))
  | _ =>
      parsed <<- in_world (parse_html BeautifulSoup html) ;;
      let week_range := fst parsed in
      let menus := snd parsed in
      _ <<- makedirs (U "public") ;;
      let out_path := U "public/index.html" in
      _ <<- write_file out_path [] ;;
      document_text <<- in_world (generate_html week_range menus) ;;
      _ <<- write_file out_path document_text ;;
      in_world
        (print (U "[INFO] Generated " ++ out_path ++ U " (week="
                  ++ str_of_optional week_range ++ U ", menus="
                  ++ str_of_N (N.of_nat (List.length menus)) ++ U ")"))
  end.

End Program.

(** A row with at least four data cells: one that passes the guard of
    line 102. *)
Definition full_row (tr : node) : bool :=
  (4 <=? List.length (find_all (U "td") tr))%nat.

(** No white space at the start, or at the end, of a text. *)
Definition no_lead (s : pystr) : Prop :=
  match s with
  | [] => True
  | c :: _ => Py_UNICODE_ISSPACE c = false
  end.

Definition no_trail (s : pystr) : Prop := no_lead (rev s).

(** The key order of line 144. *)
Definition key_le (a b : day_state) : Prop :=
  str_leb (sort_key a) (sort_key b) = true.

(** The lines [meal_card] lists for an entry: the title, unless it is empty
    or the placeholder, and then the items. *)
Definition listed_items (m : menu) : list pystr :=
  (if truthy (Some (strip (title m)))
      && negb (str_eqb (strip (title m)) (U "-"))
   then [strip (title m)] else [])
    ++ items m.

(** A reply the program takes: a response outside the 4xx and 5xx status
    codes. *)
Definition reply_ok (e : Env) (text : pystr) : Prop :=
  exists status_code reason url,
    network e URL = Response status_code reason url text /\
    raise_for_status status_code reason url = None.

(** The entry of [row_lunch]. *)
Definition menu_lunch : menu :=
  {| md := Some (U "11.10"); weekday := Some (U "월"); meal := U "점심";
     title := U "된장찌개"; items := [U "김치"; U "밥"]; info := U "-" |}.

(** An environment where the request times out. *)
Definition env_timeout : Env :=
  {| world := world0;
     network := fun _ => RequestException (U "timed out");
     files := []; dirs := []; os_error := fun _ => None |}.


(** ** Readings of the three tests of the locator *)








(** [<table summary="명지대 일주일간의 식단을 안내"> ... </table>]: a table
    known by its summary only. *)
Definition table_summary : node :=
  Tag (U "table") [(U "summary", AttrStr (U "명지대 일주일간의 식단을 안내"))]
      [el "tbody" [row_lunch]].

Definition soup_summary : node :=
  document [el "table" [el "tbody" [row_dinner]]; table_summary].

(** A table known by its caption only, after a table with another
    caption. *)
Definition table_caption : node :=
  el "table" [el "caption" [text "이번 주 "; el "b" [text "일주일간 식단 안내"]];
              el "tbody" [row_lunch]].

Definition soup_caption : node :=
  document [el "table" [el "caption" [text "공지"]; el "tbody" [row_dinner]];
            table_caption].


(** A parser that refuses the text [<![foo bar]]>], as [html.parser] of
    Python 3.11 does for the unknown keyword of the marked section, and
    gives an empty document for every other text. *)
Definition refusing_parser (html : pystr) : Result node :=
  if str_eqb html (U "<![foo bar]]>") then Raise ParserRejectedMarkup
  else Ok (document []).

(** A parser that gives the sample table for every text. *)
Definition sample_parser (html : pystr) : Result node :=
  Ok (listTable [row_lunch]).


(** An environment where the request is answered with the text the sample
    parser below refuses. *)
Definition env_refused : Env :=
  {| world := world0;
     network := fun _ => Response 200 (U "OK") URL (U "<![foo bar]]>");
     files := []; dirs := []; os_error := fun _ => None |}.

(** An environment where the request is answered with a page and the
    operating system refuses every path. *)
Definition env_readonly : Env :=
  {| world := world0;
     network := fun _ => Response 200 (U "OK") URL (U "<table></table>");
     files := []; dirs := []; os_error := fun _ => Some OSError |}.

Arguments U _ : simpl never.

(** ** Facts on strings *)

Lemma str_eqb_eq (a b : pystr) : str_eqb a b = true <-> a = b.
Proof.
  revert b; induction a as [|x a IH]; intros [|y b]; simpl; split;
    try discriminate; try reflexivity.
  - intros H. apply andb_true_iff in H as [H1 H2].
    apply N.eqb_eq in H1. apply IH in H2. congruence.
  - intros H. injection H as -> ->. rewrite N.eqb_refl. simpl.
    now apply IH.
Qed.

Lemma str_eqb_refl (a : pystr) : str_eqb a a = true.
Proof. now apply str_eqb_eq. Qed.

Lemma str_eqb_neq (a b : pystr) : str_eqb a b = false <-> a <> b.
Proof.
  split.
  - intros H E. apply str_eqb_eq in E. congruence.
  - intros H. destruct (str_eqb a b) eqn:E; [|reflexivity].
    apply str_eqb_eq in E. contradiction.
Qed.

Lemma lstrip_split (s : pystr) :
  exists ws, s = ws ++ lstrip s /\ forallb Py_UNICODE_ISSPACE ws = true.
Proof.
  induction s as [|c s [ws [E F]]]; simpl.
  - now exists [].
  - destruct (Py_UNICODE_ISSPACE c) eqn:C.
    + exists (c :: ws). simpl. rewrite C, F. split; [congruence|reflexivity].
    + now exists [].
Qed.

Lemma lstrip_spaces (ws : pystr) (c : char) (rest : pystr) :
  forallb Py_UNICODE_ISSPACE ws = true ->
  Py_UNICODE_ISSPACE c = false ->
  lstrip (ws ++ c :: rest) = c :: rest.
Proof.
  intros F C. induction ws as [|w ws IH]; simpl in *.
  - now rewrite C.
  - apply andb_true_iff in F as [F1 F2]. rewrite F1. now apply IH.
Qed.

(** ** Facts on the date pattern *)

Lemma match_at_sound (s : pystr) (m : Match) :
  match_at s = Some m -> date_pattern [] (group1 m) (group2 m) s.
Proof.
  unfold match_at.
  destruct s as [|d1 [|d2 [|dot [|d3 [|d4 rest]]]]]; try discriminate.
  destruct (Py_UNICODE_ISDECIMAL d1) eqn:D1; try discriminate.
  destruct (Py_UNICODE_ISDECIMAL d2) eqn:D2; try discriminate.
  destruct (dot =? 46)%N eqn:Dot; try discriminate.
  destruct (Py_UNICODE_ISDECIMAL d3) eqn:D3; try discriminate.
  destruct (Py_UNICODE_ISDECIMAL d4) eqn:D4; try discriminate.
  simpl. destruct (lstrip_split rest) as [ws [E F]].
  destruct (lstrip rest) as [|lp [|c [|rp post]]]; try discriminate.
  destruct (lp =? 40)%N eqn:Lp; try discriminate.
  destruct (c =? NL)%N eqn:Cn; try discriminate.
  destruct (rp =? 41)%N eqn:Rp; try discriminate.
  simpl. intros H. injection H as <-. simpl.
  apply N.eqb_eq in Dot, Lp, Rp. apply N.eqb_neq in Cn. subst.
  exists d1, d2, d3, d4, ws, c, post. repeat split; auto.
Qed.

Lemma match_at_complete (g1 g2 s : pystr) :
  date_pattern [] g1 g2 s ->
  match_at s = Some {| group1 := g1; group2 := g2 |}.
Proof.
  intros (d1 & d2 & d3 & d4 & ws & c & post
          & D1 & D2 & D3 & D4 & F & Cn & -> & -> & ->).
  simpl. rewrite D1, D2, D3, D4. simpl.
  rewrite lstrip_spaces by (auto; reflexivity).
  apply N.eqb_neq in Cn. now rewrite Cn.
Qed.

Lemma date_pattern_cons (c : char) (pre g1 g2 s : pystr) :
  date_pattern (c :: pre) g1 g2 (c :: s) <-> date_pattern pre g1 g2 s.
Proof.
  split; intros (d1 & d2 & d3 & d4 & ws & x & post
                 & D1 & D2 & D3 & D4 & F & Cn & E1 & E2 & E);
    exists d1, d2, d3, d4, ws, x, post; repeat split; auto.
  - simpl in E. now injection E.
  - simpl. now rewrite E.
Qed.

Lemma date_pattern_head (c : char) (pre g1 g2 s : pystr) :
  date_pattern (c :: pre) g1 g2 s -> exists s', s = c :: s'.
Proof.
  intros (d1 & d2 & d3 & d4 & ws & x & post & _ & _ & _ & _ & _ & _ & _ & _ & E).
  rewrite E. simpl. eauto.
Qed.

Lemma re_search_cons (c : char) (s : pystr) :
  re_search (c :: s)
  = match match_at (c :: s) with
    | Some m => Some m
    | None => re_search s
    end.
Proof. reflexivity. Qed.

Lemma re_search_none (s : pystr) :
  re_search s = None <-> forall pre g1 g2, ~ date_pattern pre g1 g2 s.
Proof.
  induction s as [|c s IH].
  - split.
    + intros _ pre g1 g2 (d1 & d2 & d3 & d4 & ws & x & post
                          & _ & _ & _ & _ & _ & _ & -> & _ & E).
      destruct pre; discriminate.
    + intros _. reflexivity.
  - rewrite re_search_cons.
    destruct (match_at (c :: s)) as [m|] eqn:M.
    + split; [discriminate|]. intros H. exfalso.
      eapply H, match_at_sound, M.
    + rewrite IH. split.
      * intros H pre g1 g2 P. destruct pre as [|c' pre].
        -- apply match_at_complete in P. congruence.
        -- destruct (date_pattern_head P) as [s' E]. injection E as <- <-.
           apply date_pattern_cons in P. eapply H, P.
      * intros H pre g1 g2 P. apply (H (c :: pre) g1 g2).
        now apply date_pattern_cons.
Qed.

Lemma re_search_leftmost (s pre g1 g2 : pystr) :
  leftmost_date pre g1 g2 s ->
  re_search s = Some {| group1 := g1; group2 := g2 |}.
Proof.
  revert pre. induction s as [|c s IH]; intros pre [P L].
  - destruct P as (d1 & d2 & d3 & d4 & ws & x & post
                   & _ & _ & _ & _ & _ & _ & -> & _ & E).
    destruct pre; discriminate.
  - rewrite re_search_cons.
    destruct (match_at (c :: s)) as [m|] eqn:M.
    + apply match_at_sound in M as P0. apply L in P0.
      destruct pre; [|simpl in P0; lia].
      apply match_at_complete in P. congruence.
    + destruct pre as [|c' pre].
      * apply match_at_complete in P. congruence.
      * destruct (date_pattern_head P) as [s' E]. injection E as <- <-.
        apply IH with (pre := pre). split.
        -- now apply date_pattern_cons in P.
        -- intros pre' g1' g2' P'.
           assert (Q : date_pattern (c :: pre') g1' g2' (c :: s))
             by now apply date_pattern_cons.
           apply L in Q. simpl in Q. lia.
Qed.

Lemma re_search_some (s : pystr) (m : Match) :
  re_search s = Some m ->
  exists pre, leftmost_date pre (group1 m) (group2 m) s.
Proof.
  revert m. induction s as [|c s IH]; intros m.
  - simpl. discriminate.
  - rewrite re_search_cons.
    destruct (match_at (c :: s)) as [m0|] eqn:M.
    + intros H. injection H as <-. exists []. split.
      * now apply match_at_sound.
      * intros. simpl. lia.
    + intros H. destruct (IH m H) as [pre [P L]]. exists (c :: pre). split.
      * now apply date_pattern_cons.
      * intros [|c' pre'] g1' g2' P'.
        -- apply match_at_complete in P'. congruence.
        -- destruct (date_pattern_head P') as [s' E]. injection E as <- <-.
           apply date_pattern_cons in P'. apply L in P'. simpl. lia.
Qed.

(** ** Rows *)

Lemma find_none_nil (name : pystr) (n : node) :
  find name n = None -> find_all name n = [].
Proof.
  unfold find. destruct (find_all name n); simpl; [reflexivity|discriminate].
Qed.

Lemma find_hd (name : pystr) (n t : node) (rest : list node) :
  find_all name n = t :: rest -> find name n = Some t.
Proof. unfold find. now intros ->. Qed.

Lemma row_menu_ok (st : day_state) (td0 td1 td2 td3 : node)
  (rest : list node) :
  exists m,
    row_menu st (td0 :: td1 :: td2 :: td3 :: rest) = Ok m /\
    md m = fst st /\ weekday m = snd st /\
    meal m = cell_text td0 /\ info m = cell_text td3 /\
    ((cell_text td1 = U "-" /\ content_lines td2 = title m :: items m)
     \/ ((cell_text td1 <> U "-" \/ content_lines td2 = [])
         /\ title m = cell_text td1 /\ items m = content_lines td2)).
Proof.
  unfold row_menu, getitem, cell_text. cbn [nth_error rbind].
  destruct (str_eqb (get_text [] true td1) (U "-")) eqn:E.
  - apply str_eqb_eq in E.
    destruct (content_lines td2) as [|x others] eqn:L; cbn [andb pop0 rbind].
    + eexists. split; [reflexivity|]. cbn. repeat split; auto.
    + eexists. split; [reflexivity|]. cbn. repeat split; auto.
  - apply str_eqb_neq in E. cbn [andb rbind].
    eexists. split; [reflexivity|]. cbn. repeat split; auto.
Qed.

Lemma date_update_carried (st : day_state) (tr : node) :
  carried st [tr] (date_update st tr).
Proof.
  unfold date_update, carried.
  destruct (find (U "th") tr) as [th|] eqn:F; [right|now left].
  exists tr, th. simpl. auto.
Qed.

Lemma row_body_short (menus : list menu) (st : day_state) (tr : node) :
  (List.length (find_all (U "td") tr) < 4)%nat ->
  row_body (menus, st) tr = Ok (menus, date_update st tr).
Proof.
  intros H. unfold row_body.
  apply Nat.ltb_lt in H. rewrite H.
  unfold date_update.
  destruct (find (U "td") tr), (find (U "th") tr); reflexivity.
Qed.

Lemma row_body_full (menus : list menu) (st : day_state) (tr : node)
  (td0 td1 td2 td3 : node) (rest : list node) :
  find_all (U "td") tr = td0 :: td1 :: td2 :: td3 :: rest ->
  exists m,
    row_menu (date_update st tr) (td0 :: td1 :: td2 :: td3 :: rest) = Ok m /\
    row_body (menus, st) tr = Ok (menus ++ [m], date_update st tr).
Proof.
  intros E.
  destruct (row_menu_ok (date_update st tr) td0 td1 td2 td3 rest)
    as [m [R _]].
  exists m. split; [exact R|].
  unfold row_body. rewrite (find_hd _ _ E), E.
  cbn [List.length Nat.ltb Nat.leb]. now rewrite R.
Qed.

Lemma row_body_cases (menus : list menu) (st : day_state) (tr : node) :
  ((List.length (find_all (U "td") tr) < 4)%nat /\
   row_body (menus, st) tr = Ok (menus, date_update st tr))
  \/ (exists m, built_from (date_update st tr) tr m /\
                row_body (menus, st) tr = Ok (menus ++ [m], date_update st tr)).
Proof.
  destruct (find_all (U "td") tr) as [|td0 [|td1 [|td2 [|td3 rest]]]] eqn:E.
  1-4: left; split; [simpl; lia|];
       apply row_body_short; rewrite E; simpl; lia.
  right. destruct (row_body_full menus st tr E) as [m [R B]].
  exists m. split; [|exact B]. unfold built_from. rewrite E. eauto 10.
Qed.

Lemma carried_step (st st1 st' : day_state) (tr : node) (trs : list node) :
  carried st [tr] st1 -> carried st1 trs st' -> carried st (tr :: trs) st'.
Proof.
  unfold carried. intros [->|(t & th & I & F & ->)] [->|(t' & th' & I' & F' & ->)];
    auto.
  - right. exists t', th'. simpl. auto.
  - right. exists t, th. simpl in *. intuition.
  - right. exists t', th'. simpl. auto.
Qed.

(** The loop never raises; it leaves entries built from the rows, each
    under loop variables carried from an earlier row. *)
Lemma for_rows_spec (trs : list node) :
  forall (menus : list menu) (st : day_state),
  exists new st',
    for_rows (menus, st) trs = Ok (menus ++ new, st') /\
    carried st trs st' /\
    Forall (fun m => exists tr st0, In tr trs /\ carried st trs st0
                                    /\ built_from st0 tr m) new.
Proof.
  induction trs as [|tr trs IH]; intros menus st.
  - exists [], st. simpl. rewrite app_nil_r. repeat split; auto. now left.
  - pose proof (date_update_carried st tr) as C1.
    destruct (row_body_cases menus st tr) as [[_ B]|(m & Bf & B)];
      cbn [for_rows]; rewrite B; cbn [rbind].
    + destruct (IH menus (date_update st tr)) as (new & st' & F & C & A).
      exists new, st'. split; [exact F|]. split.
      * eapply carried_step; eauto.
      * eapply Forall_impl; [|exact A]. cbv beta.
        intros x (t & st0 & I & C0 & Bx). exists t, st0. simpl.
        split; [auto|]. split; [|exact Bx]. eapply carried_step; eauto.
    + destruct (IH (menus ++ [m]) (date_update st tr))
        as (new & st' & F & C & A).
      exists (m :: new), st'. rewrite <- app_assoc in F. split; [exact F|].
      split.
      * eapply carried_step; eauto.
      * constructor.
        -- exists tr, (date_update st tr). split; [now left|].
           split; [|exact Bf]. eapply carried_step; [exact C1|now left].
        -- eapply Forall_impl; [|exact A]. cbv beta.
           intros x (t & st0 & I & C0 & Bx). exists t, st0. simpl.
           split; [auto|]. split; [|exact Bx]. eapply carried_step; eauto.
Qed.

(** ** The whole of [parse_html] *)

Lemma parse_soup_spec (soup : node) (w : World) :
  exists menus st' w',
    for_rows ([], (None, None)) (table_rows soup) = Ok (menus, st') /\
    parse_soup soup w
    = (Ok (option_map cell_text (select_one_date soup), menus), w') /\
    Forall (fun m => exists tr st0,
                In tr (table_rows soup) /\
                carried (None, None) (table_rows soup) st0 /\
                built_from st0 tr m) menus.
Proof.
  destruct (for_rows_spec (table_rows soup) [] (None, None))
    as (new & st' & F & _ & A).
  exists new, st'. unfold parse_soup, bind, ret, print, lift.
  unfold table_rows in *.
  destruct (select_one_date soup) as [date_el|];
    destruct (locate_table soup) as [table|]; cbv beta iota zeta.
  1,3: eexists; split; [exact F|]; split; [|exact A];
       unfold day_state in *; rewrite F; reflexivity.
  all: injection F as <- <-; eexists; split; [reflexivity|];
       split; [reflexivity|exact A].
Qed.

Lemma header_date_some (th : node) :
  exists a b, header_date th = (Some a, Some b).
Proof.
  unfold header_date. destruct (re_search _); eauto.
Qed.

Lemma built_from_fields (st : day_state) (tr : node) (m : menu) :
  built_from st tr m ->
  md m = fst st /\ weekday m = snd st /\
  exists td0 td1 td2 td3 rest,
    find_all (U "td") tr = td0 :: td1 :: td2 :: td3 :: rest /\
    meal m = cell_text td0 /\ info m = cell_text td3 /\
    ((cell_text td1 = U "-" /\ content_lines td2 = title m :: items m)
     \/ ((cell_text td1 <> U "-" \/ content_lines td2 = [])
         /\ title m = cell_text td1 /\ items m = content_lines td2)).
Proof.
  intros (td0 & td1 & td2 & td3 & rest & E & R).
  destruct (row_menu_ok st td0 td1 td2 td3 rest)
    as (m' & R' & Hmd & Hwd & Hmeal & Hinfo & Ht).
  rewrite R in R'. injection R' as <-.
  split; [exact Hmd|]. split; [exact Hwd|].
  exists td0, td1, td2, td3, rest. auto.
Qed.

(** Rows without a date cell leave the loop variables alone, and their
    entries carry them. *)
Lemma for_rows_headerless (trs : list node) :
  Forall (fun t => find (U "th") t = None) trs ->
  forall (menus : list menu) (st : day_state),
  exists new,
    for_rows (menus, st) trs = Ok (menus ++ new, st) /\
    Forall (fun m => md m = fst st /\ weekday m = snd st) new.
Proof.
  induction 1 as [|tr trs Hth _ IH]; intros menus st.
  - exists []. simpl. now rewrite app_nil_r.
  - assert (D : date_update st tr = st) by (unfold date_update; now rewrite Hth).
    destruct (row_body_cases menus st tr) as [[_ B]|(m & Bf & B)];
      cbn [for_rows]; rewrite B, D; cbn [rbind].
    + apply IH.
    + destruct (IH (menus ++ [m]) st) as (new & F & A).
      exists (m :: new). rewrite <- app_assoc in F. split; [exact F|].
      constructor; [|exact A].
      rewrite D in Bf. apply built_from_fields in Bf. tauto.
Qed.

(** ** Rows and their entries, by position *)

Lemma built_from_full (st : day_state) (tr : node) (m : menu) :
  built_from st tr m -> full_row tr = true.
Proof.
  intros (td0 & td1 & td2 & td3 & rest & E & _). unfold full_row.
  rewrite E. reflexivity.
Qed.

Lemma for_rows_full_rows (trs : list node) :
  forall (menus : list menu) (st : day_state),
  exists new st',
    for_rows (menus, st) trs = Ok (menus ++ new, st') /\
    Forall2 (fun m tr => exists st0, built_from st0 tr m)
            new (filter full_row trs).
Proof.
  induction trs as [|tr trs IH]; intros menus st.
  - exists [], st. simpl. rewrite app_nil_r. split; [reflexivity|constructor].
  - destruct (row_body_cases menus st tr) as [[L B]|(m & Bf & B)];
      cbn [for_rows filter]; rewrite B; cbn [rbind].
    + assert (F : full_row tr = false)
        by (unfold full_row; apply Nat.leb_gt; exact L).
      rewrite F. apply IH.
    + rewrite (built_from_full Bf).
      destruct (IH (menus ++ [m]) (date_update st tr)) as (new & st' & E & A).
      exists (m :: new), st'. rewrite <- app_assoc in E. split; [exact E|].
      constructor; [eauto|exact A].
Qed.

Lemma parse_soup_rows (soup : node) (w : World) :
  exists menus w',
    parse_soup soup w
    = (Ok (option_map cell_text (select_one_date soup), menus), w') /\
    Forall2 (fun m tr => exists st0, built_from st0 tr m)
            menus (filter full_row (table_rows soup)).
Proof.
  destruct (parse_soup_spec soup w) as (menus & st' & w' & F & P & _).
  destruct (for_rows_full_rows (table_rows soup) [] (None, None))
    as (new & st2 & F2 & A).
  pose proof (eq_trans (eq_sym F) F2) as X. injection X as -> _.
  exists new, w'. split; [exact P|exact A].
Qed.




(** ** The parser *)

Lemma parse_html_ok (BeautifulSoup : pystr -> Result node) (html : pystr)
  (soup : node) (w : World) :
  BeautifulSoup html = Ok soup ->
  parse_html BeautifulSoup html w = parse_soup soup w.
Proof. intros H. unfold parse_html, bind, lift. now rewrite H. Qed.

Lemma parse_html_raise (BeautifulSoup : pystr -> Result node) (html : pystr)
  (x : exn) (w : World) :
  BeautifulSoup html = Raise x ->
  parse_html BeautifulSoup html w = (Raise x, w).
Proof. intros H. unfold parse_html, bind, lift. now rewrite H. Qed.

(** ** The tests of the locator *)

Lemma startswith_app (p b : pystr) : startswith p (p ++ b) = true.
Proof.
  induction p as [|x p IH]; simpl; [now destruct b|].
  now rewrite N.eqb_refl.
Qed.

Lemma contains_app (p a b : pystr) : contains p (a ++ p ++ b) = true.
Proof.
  induction a as [|x a IH].
  - simpl app. destruct (p ++ b) eqn:E; simpl; rewrite <- E;
      now rewrite startswith_app.
  - simpl. rewrite IH. apply orb_true_r.
Qed.









(** ** The claims on [parse_html] *)

(** C1: a row sets the carried day state by three cases. When the row has a
    date cell whose text matches the date pattern, the state becomes the two
    groups of the leftmost match; when it has a date cell whose text does
    not match, the state becomes the stripped text and the empty string;
    when it has no date cell the state is kept. Rows without a date cell
    that follow are all given the state the row left. *)
Theorem C1_day_state_rule (menus : list menu) (st : day_state) (tr : node) :
  exists menus' st',
    row_body (menus, st) tr = Ok (menus', st') /\
    (forall th pre g1 g2,
        find (U "th") tr = Some th ->
        leftmost_date pre g1 g2 (get_text (U " ") true th) ->
        st' = (Some g1, Some g2)) /\
    (forall th,
        find (U "th") tr = Some th ->
        (forall pre g1 g2,
            ~ date_pattern pre g1 g2 (get_text (U " ") true th)) ->
        st' = (Some (strip (get_text (U " ") true th)), Some [])) /\
    (find (U "th") tr = None -> st' = st) /\
    (forall trs,
        Forall (fun t => find (U "th") t = None) trs ->
        exists new,
          for_rows (menus', st') trs = Ok (menus' ++ new, st') /\
          Forall (fun m => md m = fst st' /\ weekday m = snd st') new).
Proof.
  assert (S : exists menus',
             row_body (menus, st) tr = Ok (menus', date_update st tr)).
  { destruct (row_body_cases menus st tr) as [[_ B]|(m & _ & B)]; eauto. }
  destruct S as [menus' B]. exists menus', (date_update st tr).
  split; [exact B|]. unfold date_update, header_date. repeat split.
  - intros th pre g1 g2 -> L. now rewrite (re_search_leftmost L).
  - intros th -> N. apply re_search_none in N. now rewrite N.
  - now intros ->.
  - intros trs H. now apply for_rows_headerless.
Qed.

(** C2: when the title cell of a row with four data cells reads "-" and the
    content cell has lines, the entry takes its first line as title and the
    other lines, in order, as items. *)
Theorem C2_title_fallback (menus : list menu) (st : day_state)
  (tr td0 td1 td2 td3 : node) (rest : list node)
  (first : pystr) (others : list pystr) :
  find_all (U "td") tr = td0 :: td1 :: td2 :: td3 :: rest ->
  cell_text td1 = U "-" ->
  content_lines td2 = first :: others ->
  exists m st',
    row_body (menus, st) tr = Ok (menus ++ [m], st') /\
    title m = first /\ items m = others.
Proof.
  intros E T L.
  destruct (row_body_full menus st tr E) as (m & R & B).
  exists m, (date_update st tr). split; [exact B|].
  destruct (row_menu_ok (date_update st tr) td0 td1 td2 td3 rest)
    as (m' & R' & _ & _ & _ & _ & [[_ Hl]|[[Hn|Hn] _]]);
    rewrite R in R'; injection R' as <-.
  - rewrite L in Hl. now injection Hl.
  - contradiction.
  - congruence.
Qed.

(** C3, as amended: the entry of a row has the title "-" exactly when the
    title cell of that row reads "-" and its content cell has no line, or
    a first line that is "-" itself. The entries are taken with their
    rows: those with at least four data cells, in order. *)
Theorem C3_title_placeholder (soup : node) (w : World) :
  exists wr menus w',
    parse_soup soup w = (Ok (wr, menus), w') /\
    Forall2 (fun m tr =>
               exists td0 td1 td2 td3 rest,
                 find_all (U "td") tr = td0 :: td1 :: td2 :: td3 :: rest /\
                 (title m = U "-" <->
                  cell_text td1 = U "-" /\
                  (content_lines td2 = [] \/
                   exists others, content_lines td2 = U "-" :: others)))
            menus (filter full_row (table_rows soup)).
Proof.
  destruct (parse_soup_rows soup w) as (menus & w' & P & A).
  exists (option_map cell_text (select_one_date soup)), menus, w'.
  split; [exact P|].
  eapply Forall2_impl; [|exact A]. cbv beta. intros m tr [st0 Bf].
  apply built_from_fields in Bf
    as (_ & _ & td0 & td1 & td2 & td3 & rest & E & _ & _ & H).
  exists td0, td1, td2, td3, rest. split; [exact E|].
  destruct H as [[H1 H2]|[[H1|H1] [H2 H3]]].
  - rewrite H2. split.
    + intros T. split; [exact H1|]. right. exists (items m). now rewrite T.
    + intros [_ [X|[others X]]]; [discriminate X|]. now injection X.
  - rewrite H2. split; [congruence|]. intros [X _]. contradiction.
  - rewrite H2, H1. split; [intros T; split; [exact T|now left]|tauto].
Qed.

Lemma hd_error_filter (A : Type) (p : A -> bool) (l : list A) :
  hd_error (filter p l) = List.find p l.
Proof.
  induction l as [|x l IH]; simpl; [reflexivity|].
  now destruct (p x).
Qed.

Lemma find_filter (A : Type) (p q : A -> bool) (l : list A) :
  List.find q (filter p l) = List.find (fun x => p x && q x) l.
Proof.
  induction l as [|x l IH]; simpl; [reflexivity|].
  destruct (p x); simpl; [|exact IH]. now destruct (q x).
Qed.

Lemma find_none_iff (A : Type) (p : A -> bool) (l : list A) :
  List.find p l = None <-> forall x, In x l -> p x = false.
Proof.
  split; [apply find_none|].
  induction l as [|x l IH]; simpl; [reflexivity|]. intros H.
  rewrite (H x) by now left. apply IH. intros y I. apply H. now right.
Qed.

Lemma table_by_id_find (soup : node) :
  table_by_id soup = List.find id_matches (descendants soup).
Proof. apply hd_error_filter. Qed.

Lemma table_by_summary_find (soup : node) :
  table_by_summary soup = List.find summary_attr_matches (descendants soup).
Proof. apply hd_error_filter. Qed.

Lemma table_by_caption_find (soup : node) :
  table_by_caption soup
  = List.find caption_table_matches (descendants soup).
Proof. apply find_filter. Qed.




(** C6, as amended: a row with fewer than four data cells adds no entry; it
    keeps the carried state when it has no date cell, and sets it from the
    date cell when it has one. *)
Theorem C6_short_row (menus : list menu) (st : day_state) (tr : node) :
  (List.length (find_all (U "td") tr) < 4)%nat ->
  exists st',
    row_body (menus, st) tr = Ok (menus, st') /\
    (find (U "th") tr = None -> st' = st) /\
    (forall th, find (U "th") tr = Some th -> st' = header_date th).
Proof.
  intros H. exists (date_update st tr).
  split; [now apply row_body_short|].
  unfold date_update. split; [now intros ->|]. now intros th ->.
Qed.

(** C8: the result of [parse_html] on a text does not depend on the world it
    runs in; a second run, in the world the first one left, returns what the
    first returned. *)
Theorem C8_extraction_deterministic (BeautifulSoup : pystr -> Result node)
  (html : pystr) (w w' : World) :
  fst (parse_html BeautifulSoup html w)
  = fst (parse_html BeautifulSoup html w') /\
  fst (parse_html BeautifulSoup html
         (snd (parse_html BeautifulSoup html w)))
  = fst (parse_html BeautifulSoup html w).
Proof.
  assert (G : forall w1 w2,
             fst (parse_html BeautifulSoup html w1)
             = fst (parse_html BeautifulSoup html w2)).
  { intros w1 w2. destruct (BeautifulSoup html) as [soup|x] eqn:B.
    - rewrite !(parse_html_ok _ _ _ B).
      destruct (parse_soup_spec soup w1) as (m1 & s1 & x1 & F1 & P1 & _).
      destruct (parse_soup_spec soup w2) as (m2 & s2 & x2 & F2 & P2 & _).
      rewrite P1, P2. simpl.
      pose proof (eq_trans (eq_sym F1) F2) as X. now injection X as -> _.
    - now rewrite !(parse_html_raise _ _ _ B). }
  split; apply G.
Qed.


(** ** The renderer *)

Lemma opt_eqb_eq (a b : option pystr) : opt_eqb a b = true -> a = b.
Proof.
  destruct a, b; simpl; try discriminate; try reflexivity.
  intros H. apply str_eqb_eq in H. now subst.
Qed.

Lemma key_eqb_eq (a b : day_state) : key_eqb a b = true -> a = b.
Proof.
  destruct a, b. unfold key_eqb. simpl. intros H.
  apply andb_true_iff in H as [H1 H2].
  apply opt_eqb_eq in H1, H2. now subst.
Qed.

Lemma key_eqb_refl (a : day_state) : key_eqb a a = true.
Proof.
  destruct a as [[x|] [y|]]; unfold key_eqb; simpl;
    rewrite ?str_eqb_refl; reflexivity.
Qed.

(** A key with a date: what the two loops of the renderer do not skip. *)
Local Abbreviation dated := (fun k : day_state => truthy (fst k)).
Local Abbreviation dated_group :=
  (fun e : day_state * list menu => truthy (fst (fst e))).

Lemma sort_key_nil (k : day_state) :
  truthy (fst k) = false -> sort_key k = [].
Proof.
  unfold sort_key, or_empty. now destruct (fst k) as [[|c s]|].
Qed.

Lemma sort_key_cons (k : day_state) :
  truthy (fst k) = true -> exists c s, sort_key k = c :: s.
Proof.
  unfold sort_key, or_empty. destruct (fst k) as [[|c s]|]; try discriminate.
  eauto.
Qed.

Lemma filter_insert_key (k : day_state) (l : list day_state) :
  filter dated (insert_key k l)
  = if truthy (fst k) then insert_key k (filter dated l)
    else filter dated l.
Proof.
  destruct (truthy (fst k)) eqn:K.
  - destruct (sort_key_cons k K) as (c & s & Ek).
    induction l as [|y l IH]; cbn [insert_key filter].
    + now rewrite K.
    + destruct (truthy (fst y)) eqn:Y.
      * cbn [insert_key].
        destruct (str_leb (sort_key k) (sort_key y)); cbn [filter].
        -- now rewrite K, Y.
        -- now rewrite Y, IH.
      * rewrite (sort_key_nil y Y), Ek. cbn [str_leb filter].
        now rewrite Y.
  - pose proof (sort_key_nil k K) as Ek.
    destruct l as [|y l]; cbn [insert_key filter].
    + now rewrite K.
    + rewrite Ek. cbn [str_leb filter]. now rewrite K.
Qed.

Lemma filter_sorted (l : list day_state) :
  filter dated (sorted l) = sorted (filter dated l).
Proof.
  induction l as [|k l IH]; [reflexivity|].
  cbn [sorted filter]. rewrite filter_insert_key.
  destruct (truthy (fst k)); cbn [sorted]; now rewrite IH.
Qed.

Lemma filter_group_append (g : groups) (k : day_state) (m : menu) :
  filter dated_group (group_append g k m)
  = if truthy (fst k) then group_append (filter dated_group g) k m
    else filter dated_group g.
Proof.
  induction g as [|[k' ms] g IH]; cbn [group_append filter fst].
  - now destruct (truthy (fst k)).
  - destruct (key_eqb k' k) eqn:E.
    + apply key_eqb_eq in E. subst k'. cbn [filter fst].
      destruct (truthy (fst k)); [|reflexivity].
      cbn [group_append]. now rewrite key_eqb_refl.
    + cbn [filter fst]. rewrite IH.
      destruct (truthy (fst k')), (truthy (fst k)); try reflexivity.
      cbn [group_append]. now rewrite E.
Qed.

Lemma filter_fold_groups (menus : list menu) (g : groups) :
  fold_left (fun g m => group_append g (md m, weekday m) m)
            (filter has_md menus) (filter dated_group g)
  = filter dated_group
      (fold_left (fun g m => group_append g (md m, weekday m) m) menus g).
Proof.
  revert g. induction menus as [|m menus IH]; intros g; [reflexivity|].
  cbn [filter fold_left]. rewrite <- IH, filter_group_append.
  unfold has_md. cbn [fst]. now destruct (truthy (md m)).
Qed.

Lemma group_menus_filter (menus : list menu) :
  group_menus (filter has_md menus)
  = filter dated_group (group_menus menus).
Proof. apply (filter_fold_groups menus []). Qed.

Lemma map_fst_filter_groups (g : groups) :
  map fst (filter dated_group g) = filter dated (map fst g).
Proof.
  induction g as [|[k ms] g IH]; [reflexivity|].
  cbn [filter map fst]. destruct (truthy (fst k)); cbn [map fst];
    now rewrite IH.
Qed.

Lemma group_get_filter (g : groups) (k : day_state) :
  truthy (fst k) = true ->
  group_get (filter dated_group g) k = group_get g k.
Proof.
  intros K. induction g as [|[k' ms] g IH]; [reflexivity|].
  cbn [filter group_get fst].
  destruct (truthy (fst k')) eqn:K'.
  - cbn [group_get]. now rewrite IH.
  - destruct (key_eqb k' k) eqn:E; [|exact IH].
    apply key_eqb_eq in E. subst. congruence.
Qed.

Lemma day_tab_filter (keys : list day_state) :
  flat_map day_tab (filter dated keys) = flat_map day_tab keys.
Proof.
  induction keys as [|[d wd] keys IH]; [reflexivity|].
  cbn [filter flat_map fst]. destruct (truthy d) eqn:K.
  - cbn [flat_map]. now rewrite IH.
  - rewrite IH. unfold day_tab at 2. now rewrite K.
Qed.

Lemma day_panel_filter (g : groups) (keys : list day_state) :
  flat_map (day_panel (filter dated_group g)) (filter dated keys)
  = flat_map (day_panel g) keys.
Proof.
  induction keys as [|[d wd] keys IH]; [reflexivity|].
  cbn [filter flat_map fst]. destruct (truthy d) eqn:K.
  - cbn [flat_map]. rewrite IH. f_equal.
    unfold day_panel. rewrite K. cbn [negb].
    now rewrite group_get_filter.
  - rewrite IH. unfold day_panel at 2. now rewrite K.
Qed.

Lemma render_at_filter (updated_kst : pystr) (week_range : option pystr)
  (menus : list menu) :
  render_at updated_kst week_range (filter has_md menus)
  = render_at updated_kst week_range menus.
Proof.
  unfold render_at, body_parts.
  rewrite group_menus_filter, map_fst_filter_groups, <- filter_sorted.
  now rewrite day_tab_filter, day_panel_filter.
Qed.

(** Grouping keeps every entry in the bucket of its key. *)
Lemma group_append_new (g : groups) (k : day_state) (m : menu) :
  exists ms, In (k, ms) (group_append g k m) /\ In m ms.
Proof.
  induction g as [|[k' ms'] g (ms & I & J)]; cbn [group_append].
  - exists [m]. simpl. auto.
  - destruct (key_eqb k' k) eqn:E.
    + apply key_eqb_eq in E. subst. exists (ms' ++ [m]). split.
      * now left.
      * apply in_or_app. right. now left.
    + exists ms. split; [now right|exact J].
Qed.

Lemma group_append_old (g : groups) (k k0 : day_state) (m m0 : menu)
  (ms0 : list menu) :
  In (k0, ms0) g -> In m0 ms0 ->
  exists ms, In (k0, ms) (group_append g k m) /\ In m0 ms.
Proof.
  induction g as [|[k' ms'] g IH]; cbn [group_append]; [contradiction|].
  intros [E|I] J.
  - injection E as -> ->. destruct (key_eqb k0 k).
    + exists (ms0 ++ [m]). split; [now left|]. apply in_or_app. now left.
    + exists ms0. split; [now left|exact J].
  - destruct (IH I J) as (ms & I' & J').
    destruct (key_eqb k' k).
    + exists ms0. split; [now right|exact J].
    + exists ms. split; [now right|exact J'].
Qed.

Lemma fold_groups_keep (menus : list menu) :
  forall (g : groups),
    (forall m, In m menus ->
               exists ms,
                 In ((md m, weekday m), ms)
                    (fold_left (fun g m => group_append g (md m, weekday m) m)
                               menus g)
                 /\ In m ms) /\
    (forall k0 ms0 m0, In (k0, ms0) g -> In m0 ms0 ->
               exists ms,
                 In (k0, ms)
                    (fold_left (fun g m => group_append g (md m, weekday m) m)
                               menus g)
                 /\ In m0 ms).
Proof.
  induction menus as [|x menus IH]; intros g.
  - split; [contradiction|]. intros k0 ms0 m0 I J. exists ms0. auto.
  - destruct (IH (group_append g (md x, weekday x) x)) as [A B].
    cbn [fold_left]. split.
    + intros m [->|I]; [|now apply A].
      destruct (group_append_new g (md m, weekday m) m) as (ms & I & J).
      eapply B; eauto.
    + intros k0 ms0 m0 I J.
      destruct (@group_append_old g (md x, weekday x) k0 x m0 ms0 I J)
        as (ms & I' & J').
      eapply B; eauto.
Qed.

Lemma strftime_minute (t1 t2 : Z) :
  (t1 / 60 = t2 / 60)%Z ->
  strftime (t1 + 9 * 3600) = strftime (t2 + 9 * 3600).
Proof.
  intros H. unfold strftime.
  assert (A : ((t1 + 9 * 3600) / 86400 = (t2 + 9 * 3600) / 86400)%Z)
    by (Z.div_mod_to_equations; lia).
  assert (B : (((t1 + 9 * 3600) mod 86400) / 3600
               = ((t2 + 9 * 3600) mod 86400) / 3600)%Z)
    by (Z.div_mod_to_equations; lia).
  assert (C : (((t1 + 9 * 3600) mod 86400) mod 3600 / 60
               = ((t2 + 9 * 3600) mod 86400) mod 3600 / 60)%Z)
    by (Z.div_mod_to_equations; lia).
  now rewrite A, B, C.
Qed.

Lemma generate_html_eq (week_range : option pystr) (menus : list menu)
  (w : World) :
  generate_html week_range menus w
  = (Ok (render_at (strftime (clock w + 9 * 3600)) week_range menus), w).
Proof. reflexivity. Qed.

Lemma Ok_inj (A : Type) (a b : A) : Ok a = Ok b -> a = b.
Proof. intros H. now injection H. Qed.

(** ** The claims on [generate_html] *)

(** C7, as amended: a row with four data cells and no date cell adds an
    entry under whatever state is carried, an empty or absent date
    included; grouping keeps every entry in the bucket of its key; but the
    renderer skips the keys without a date, so the document is the one it
    writes for the entries that have a date. *)
Theorem C7_dateless_entries :
  (forall (menus : list menu) (st : day_state) (tr : node),
      find (U "th") tr = None ->
      (4 <= List.length (find_all (U "td") tr))%nat ->
      exists m,
        row_body (menus, st) tr = Ok (menus ++ [m], st) /\
        md m = fst st /\ weekday m = snd st) /\
  (forall (menus : list menu) (m : menu),
      In m menus ->
      exists ms,
        In ((md m, weekday m), ms) (group_menus menus) /\ In m ms) /\
  (forall (week_range : option pystr) (menus : list menu) (w : World),
      generate_html week_range menus w
      = generate_html week_range (filter has_md menus) w).
Proof.
  split; [|split].
  - intros menus st tr Hth Hlen.
    assert (D : date_update st tr = st)
      by (unfold date_update; now rewrite Hth).
    destruct (row_body_cases menus st tr) as [[L _]|(m & Bf & B)]; [lia|].
    rewrite D in *. exists m. split; [exact B|].
    apply built_from_fields in Bf. tauto.
  - intros menus m I. now apply (fold_groups_keep menus []).
  - intros week_range menus w. unfold generate_html, bind, now_utc, ret.
    now rewrite render_at_filter.
Qed.

(** C9, as amended: the document depends on the week label, the entries and
    the minute the clock shows, and on nothing else; the renderer leaves
    the world as it found it. *)
Theorem C9_render_by_minute (week_range : option pystr) (menus : list menu)
  (w1 w2 : World) :
  (clock w1 / 60 = clock w2 / 60)%Z ->
  fst (generate_html week_range menus w1)
  = fst (generate_html week_range menus w2) /\
  snd (generate_html week_range menus w1) = w1.
Proof.
  intros H. unfold generate_html, bind, now_utc, ret. cbn [fst snd].
  now rewrite (strftime_minute _ _ H).
Qed.

(** ** The statements at sample documents *)

(** Two rows, the second without a date cell: both entries carry the date
    of the first, and only the first takes its title from the content. *)
Example parse_two_rows :
  fst (parse_soup (listTable [row_lunch; row_dinner]) world0)
  = Ok (None,
        [ {| md := Some (U "11.10"); weekday := Some (U "월");
             meal := U "점심"; title := U "된장찌개";
             items := [U "김치"; U "밥"]; info := U "-" |};
          {| md := Some (U "11.10"); weekday := Some (U "월");
             meal := U "저녁"; title := U "메인메뉴";
             items := [U "비빔밥"; U "계란국"]; info := U "비고" |} ]).
Proof. vm_compute. reflexivity. Qed.

(** A date cell the pattern does not match gives its text as [md] and the
    empty string as [weekday]; the row has one data cell and adds nothing. *)
Example holiday_row :
  row_body ([], (None, None)) row_holiday
  = Ok ([], (Some (U "휴일"), Some [])).
Proof. vm_compute. reflexivity. Qed.

(** C1 at the two rows above. *)

Lemma C1_witness :
  exists menus' st',
    row_body ([], (None, None)) row_lunch = Ok (menus', st') /\
    st' = (Some (U "11.10"), Some (U "월")) /\
    exists new,
      for_rows (menus', st') [row_dinner] = Ok (menus' ++ new, st') /\
      Forall (fun m => md m = fst st' /\ weekday m = snd st') new.
Proof.
  destruct (C1_day_state_rule [] (None, None) row_lunch)
    as (menus' & st' & B & H1 & _ & _ & H4).
  exists menus', st'. split; [exact B|]. split.
  - apply (H1 (el "th" [text "11.10 (월)"]) [] (U "11.10") (U "월")).
    + reflexivity.
    + split.
      * exists 49%N, 49%N, 49%N, 48%N, [32%N], 50900%N, [].
        repeat split; try reflexivity. discriminate.
      * intros. apply Nat.le_0_l.
  - apply H4. constructor; [reflexivity|constructor].
Defined.

(** C2 at the row of the claim. *)
Lemma C2_witness :
  exists m st',
    row_body ([], (None, None)) row_lunch = Ok ([] ++ [m], st') /\
    title m = U "된장찌개" /\ items m = [U "김치"; U "밥"].
Proof.
  apply (@C2_title_fallback [] (None, None) row_lunch
           (el "td" [text "점심"]) (el "td" [text "-"])
           (el "td" [text "된장찌개"; br; text "김치"; br; text "밥"])
           (el "td" [text "-"]) []);
    reflexivity.
Defined.

(** With an empty content cell the title of the entry stays the
    placeholder. *)
Lemma C3_counterexample :
  exists m,
    fst (parse_soup (listTable [row_no_content]) world0) = Ok (None, [m]) /\
    title m = U "-".
Proof.
  exists {| md := None; weekday := None; meal := U "점심"; title := U "-";
            items := []; info := U "-" |}.
  split; vm_compute; reflexivity.
Qed.

(** C3 at that row. *)
Lemma C3_witness :
  exists wr m w',
    parse_soup (listTable [row_no_content]) world0 = (Ok (wr, [m]), w') /\
    title m = U "-".
Proof.
  destruct (C3_title_placeholder (listTable [row_no_content]) world0)
    as (wr & menus & w' & P & A).
  change (filter full_row (table_rows (listTable [row_no_content])))
    with [row_no_content] in A.
  inversion A as [|m tr ms trs (td0 & td1 & td2 & td3 & rest & E & T) A' Em Et].
  inversion A'. subst. exists wr, m, w'. split; [exact P|].
  change (find_all (U "td") row_no_content)
    with [el "td" [text "점심"]; el "td" [text "-"]; el "td" [];
          el "td" [text "-"]] in E.
  injection E as <- <- <- <- <-.
  apply T. split; [reflexivity|]. left. reflexivity.
Defined.

(** The locator at a table known by its summary, and at one known by its
    caption that follows a table with another caption. *)
Example locate_by_summary : locate_table soup_summary = Some table_summary.
Proof. vm_compute. reflexivity. Qed.

Example locate_by_caption : locate_table soup_caption = Some table_caption.
Proof. vm_compute. reflexivity. Qed.





(** A row with a date cell and no data cell changes the carried state. *)
Lemma C6_counterexample :
  (List.length (find_all (U "td") row_date_only) < 4)%nat /\
  row_body ([], (Some (U "11.10"), Some (U "월"))) row_date_only
  = Ok ([], (Some (U "11.11"), Some (U "화"))) /\
  (Some (U "11.11"), Some (U "화")) <> (Some (U "11.10"), Some (U "월")).
Proof.
  split; [vm_compute; lia|]. split; [vm_compute; reflexivity|].
  intros H. vm_compute in H. discriminate H.
Qed.

(** C6 at that row. *)
Lemma C6_witness :
  exists st',
    row_body ([], (Some (U "11.10"), Some (U "월"))) row_date_only
    = Ok ([], st') /\
    (find (U "th") row_date_only = None ->
     st' = (Some (U "11.10"), Some (U "월"))) /\
    (forall th, find (U "th") row_date_only = Some th ->
                st' = header_date th).
Proof.
  apply (@C6_short_row [] (Some (U "11.10"), Some (U "월")) row_date_only).
  vm_compute. lia.
Defined.

(** The document for an entry without a date is the document for no
    entry. *)
Lemma C7_counterexample :
  exists m,
    fst (parse_soup (listTable [row_dinner]) world0) = Ok (None, [m]) /\
    md m = None /\
    fst (generate_html None [m] world0) = fst (generate_html None [] world0).
Proof.
  exists {| md := None; weekday := None; meal := U "저녁";
            title := U "메인메뉴"; items := [U "비빔밥"; U "계란국"];
            info := U "비고" |}.
  repeat split; vm_compute; reflexivity.
Qed.

(** C7 at a row without a date cell, before any date was seen. *)
Lemma C7_witness :
  exists m,
    row_body ([], (None, None)) row_dinner = Ok ([] ++ [m], (None, None)) /\
    md m = None /\ weekday m = None.
Proof.
  destruct C7_dateless_entries as (H & _ & _).
  apply (H [] (None, None) row_dinner).
  - reflexivity.
  - vm_compute. lia.
Defined.

(** The same arguments, a minute apart, give two documents. *)
Lemma C9_counterexample :
  fst (generate_html None [] {| stdout := []; clock := 0 |})
  <> fst (generate_html None [] {| stdout := []; clock := 60 |}).
Proof.
  rewrite !generate_html_eq. cbn [fst clock]. intros H.
  apply Ok_inj in H. revert H. apply str_eqb_neq.
  vm_compute. reflexivity.
Qed.

(** C9 within one minute, in two worlds. *)
Lemma C9_witness :
  fst (generate_html None [menu_no_date] {| stdout := []; clock := 0 |})
  = fst (generate_html None [menu_no_date]
           {| stdout := [U "x"]; clock := 59 |}) /\
  snd (generate_html None [menu_no_date] {| stdout := []; clock := 0 |})
  = {| stdout := []; clock := 0 |}.
Proof.
  apply (@C9_render_by_minute None [menu_no_date]
           {| stdout := []; clock := 0 |}
           {| stdout := [U "x"]; clock := 59 |}).
  reflexivity.
Defined.

(** ** More on strings *)

Lemma lstrip_in (c : char) (s : pystr) : In c (lstrip s) -> In c s.
Proof.
  destruct (lstrip_split s) as [ws [E _]]. intros H. rewrite E.
  apply in_or_app. now right.
Qed.

Lemma strip_in (c : char) (s : pystr) : In c (strip s) -> In c s.
Proof.
  unfold strip, rstrip. intros H.
  apply in_rev, lstrip_in in H. apply in_rev in H. now apply lstrip_in.
Qed.

Lemma no_lead_lstrip (s : pystr) : no_lead (lstrip s).
Proof.
  induction s as [|c s IH]; simpl; [exact I|].
  destruct (Py_UNICODE_ISSPACE c) eqn:C; [exact IH|exact C].
Qed.

Lemma lstrip_no_lead (s : pystr) : no_lead s -> lstrip s = s.
Proof.
  destruct s as [|c s]; simpl; [reflexivity|]. now intros ->.
Qed.

Lemma lstrip_snoc (s : pystr) (c : char) :
  Py_UNICODE_ISSPACE c = false -> lstrip (s ++ [c]) = lstrip s ++ [c].
Proof.
  intros C. induction s as [|x s IH]; simpl.
  - now rewrite C.
  - destruct (Py_UNICODE_ISSPACE x); [exact IH|reflexivity].
Qed.

Lemma rstrip_cons (c : char) (s : pystr) :
  Py_UNICODE_ISSPACE c = false -> rstrip (c :: s) = c :: rstrip s.
Proof.
  intros C. unfold rstrip. simpl rev.
  now rewrite lstrip_snoc, rev_app_distr.
Qed.

Lemma no_lead_rstrip (s : pystr) : no_lead s -> no_lead (rstrip s).
Proof.
  destruct s as [|c s]; [intros _; exact I|].
  simpl. intros C. now rewrite rstrip_cons.
Qed.

Lemma no_trail_rstrip (s : pystr) : no_trail (rstrip s).
Proof.
  unfold no_trail, rstrip. rewrite rev_involutive. apply no_lead_lstrip.
Qed.

Lemma rstrip_no_trail (s : pystr) : no_trail s -> rstrip s = s.
Proof.
  unfold no_trail, rstrip. intros H.
  now rewrite (lstrip_no_lead _ H), rev_involutive.
Qed.

Lemma strip_ends (s : pystr) : no_lead (strip s) /\ no_trail (strip s).
Proof.
  unfold strip. split.
  - apply no_lead_rstrip, no_lead_lstrip.
  - apply no_trail_rstrip.
Qed.

Lemma strip_fixed (s : pystr) : no_lead s -> no_trail s -> strip s = s.
Proof.
  intros L T. unfold strip. rewrite (lstrip_no_lead _ L).
  now apply rstrip_no_trail.
Qed.

Lemma strip_idem (s : pystr) : strip (strip s) = strip s.
Proof. destruct (strip_ends s). now apply strip_fixed. Qed.

Lemma split_no_sep (sep : char) (s : pystr) :
  Forall (fun l => ~ In sep l) (split sep s).
Proof.
  induction s as [|c s IH]; simpl.
  - constructor; [intros []|constructor].
  - destruct (c =? sep)%N eqn:E.
    + constructor; [intros []|exact IH].
    + destruct (split sep s) as [|h r].
      * constructor; [|constructor]. intros [->|[]].
        now rewrite N.eqb_refl in E.
      * inversion IH as [|? ? Hh Hr]; subst. constructor; [|exact Hr].
        intros [->|I]; [now rewrite N.eqb_refl in E|contradiction].
Qed.

Lemma no_lead_app (a b : pystr) : a <> [] -> no_lead a -> no_lead (a ++ b).
Proof. destruct a; [contradiction|auto]. Qed.

(** Pieces that are stripped and not empty, as [_all_strings] gives them
    with [strip=True]. *)
Lemma all_strings_stripped (n : node) :
  Forall (fun p => p <> [] /\ no_lead p /\ no_trail p) (_all_strings true n).
Proof.
  destruct n as [cls s|nm a cs]; simpl; [constructor|].
  induction (flat_map (fun c => c :: descendants c) cs) as [|d ds IH];
    simpl; [constructor|].
  apply Forall_app. split; [|exact IH].
  destruct d as [cls s|? ? ?]; [|constructor].
  destruct (existsb _ _); [|constructor].
  destruct (strip s) as [|c t] eqn:E; constructor; [|constructor].
  rewrite <- E. destruct (strip_ends s). rewrite E at 1. split; [discriminate|auto].
Qed.

Lemma join_stripped (sep : pystr) (ps : list pystr) :
  Forall (fun p => p <> [] /\ no_lead p /\ no_trail p) ps ->
  no_lead (join sep ps) /\ no_trail (join sep ps) /\
  (ps <> [] -> join sep ps <> []).
Proof.
  induction 1 as [|p ps (N & L & T) _ (IL & IT & IN)]; [now simpl|].
  destruct ps as [|q r].
  - simpl. repeat split; auto.
  - change (join sep (p :: q :: r)) with (p ++ sep ++ join sep (q :: r)).
    assert (Q : join sep (q :: r) <> []) by (apply IN; discriminate).
    repeat split.
    + now apply no_lead_app.
    + unfold no_trail in *. rewrite !rev_app_distr, <- app_assoc.
      apply no_lead_app; [|exact IT].
      intros E. apply Q. apply (f_equal (@rev char)) in E.
      now rewrite rev_involutive in E.
    + intros _ E. destruct p; [now apply N|discriminate].
Qed.

Lemma get_text_stripped (sep : pystr) (n : node) :
  strip (get_text sep true n) = get_text sep true n.
Proof.
  unfold get_text.
  destruct (join_stripped sep (all_strings_stripped n)) as (L & T & _).
  now apply strip_fixed.
Qed.

Lemma content_lines_clean (td : node) :
  Forall (fun l => l <> [] /\ ~ In NL l /\ strip l = l) (content_lines td).
Proof.
  unfold content_lines.
  pose proof (split_no_sep NL (get_text [NL] true td)) as S.
  induction S as [|l ls Hl _ IH]; simpl; [constructor|].
  destruct (strip l) as [|c t] eqn:E; [exact IH|].
  constructor; [|exact IH]. rewrite <- E. repeat split.
  - rewrite E. discriminate.
  - intros I. apply Hl. now apply strip_in.
  - apply strip_idem.
Qed.

(** ** More on [parse_html] *)


(** X2: no item of an entry of the result is empty, holds a newline, or
    starts or ends with white space. *)
Theorem parse_items_clean (soup : node) (w : World) :
  exists wr menus w',
    parse_soup soup w = (Ok (wr, menus), w') /\
    Forall (fun m =>
              Forall (fun item => item <> [] /\ ~ In NL item
                                  /\ strip item = item) (items m))
           menus.
Proof.
  destruct (parse_soup_spec soup w) as (menus & st' & w' & _ & P & A).
  exists (option_map cell_text (select_one_date soup)), menus, w'.
  split; [exact P|].
  eapply Forall_impl; [|exact A]. cbv beta. intros m (tr & st0 & _ & _ & Bf).
  apply built_from_fields in Bf
    as (_ & _ & td0 & td1 & td2 & td3 & rest & _ & _ & _ & H).
  pose proof (content_lines_clean td2) as C.
  destruct H as [[_ H]|[_ [_ H]]]; rewrite H in *; [|exact C].
  now inversion C.
Qed.

(** X3: the content lines of a row all reach its entry, in order: they are
    its items, or its title followed by its items. *)
Theorem parse_keeps_content_lines (soup : node) (w : World) :
  exists wr menus w',
    parse_soup soup w = (Ok (wr, menus), w') /\
    Forall2 (fun m tr =>
               exists td0 td1 td2 td3 rest,
                 find_all (U "td") tr = td0 :: td1 :: td2 :: td3 :: rest /\
                 (content_lines td2 = items m \/
                  content_lines td2 = title m :: items m))
            menus (filter full_row (table_rows soup)).
Proof.
  destruct (parse_soup_rows soup w) as (menus & w' & P & A).
  exists (option_map cell_text (select_one_date soup)), menus, w'.
  split; [exact P|].
  eapply Forall2_impl; [|exact A]. cbv beta. intros m tr [st0 Bf].
  apply built_from_fields in Bf
    as (_ & _ & td0 & td1 & td2 & td3 & rest & E & _ & _ & H).
  exists td0, td1, td2, td3, rest. split; [exact E|].
  destruct H as [[_ H]|[_ [_ H]]]; auto.
Qed.

Lemma header_date_shape (th : node) :
  (exists d1 d2 d3 d4 c,
      Py_UNICODE_ISDECIMAL d1 = true /\ Py_UNICODE_ISDECIMAL d2 = true /\
      Py_UNICODE_ISDECIMAL d3 = true /\ Py_UNICODE_ISDECIMAL d4 = true /\
      c <> NL /\
      header_date th = (Some [d1; d2; 46%N; d3; d4], Some [c]))
  \/ header_date th = (Some (get_text (U " ") true th), Some []).
Proof.
  unfold header_date.
  destruct (re_search (get_text (U " ") true th)) as [m|] eqn:R.
  - left. apply re_search_some in R as (pre & P & _).
    destruct P as (d1 & d2 & d3 & d4 & ws & c & post
                   & D1 & D2 & D3 & D4 & _ & Cn & E1 & E2 & _).
    exists d1, d2, d3, d4, c. rewrite E1, E2. auto 10.
  - right. now rewrite get_text_stripped.
Qed.

(** X4: in every entry of the result, [md] and [weekday] are both [None];
    or [md] is two digits, a dot and two digits and [weekday] is one
    character; or [weekday] is empty and [md] is the text of a date cell,
    with no white space around it. *)
Theorem parse_date_shape (soup : node) (w : World) :
  exists wr menus w',
    parse_soup soup w = (Ok (wr, menus), w') /\
    Forall (fun m =>
              (md m = None /\ weekday m = None)
              \/ (exists d1 d2 d3 d4 c,
                     Py_UNICODE_ISDECIMAL d1 = true /\
                     Py_UNICODE_ISDECIMAL d2 = true /\
                     Py_UNICODE_ISDECIMAL d3 = true /\
                     Py_UNICODE_ISDECIMAL d4 = true /\ c <> NL /\
                     md m = Some [d1; d2; 46%N; d3; d4] /\
                     weekday m = Some [c])
              \/ (exists tr th,
                     In tr (table_rows soup) /\
                     find (U "th") tr = Some th /\
                     md m = Some (get_text (U " ") true th) /\
                     strip (get_text (U " ") true th)
                     = get_text (U " ") true th /\
                     weekday m = Some []))
           menus.
Proof.
  destruct (parse_soup_spec soup w) as (menus & st' & w' & _ & P & A).
  exists (option_map cell_text (select_one_date soup)), menus, w'.
  split; [exact P|].
  eapply Forall_impl; [|exact A]. cbv beta. intros m (tr & st0 & _ & C & Bf).
  apply built_from_fields in Bf as (Hmd & Hwd & _).
  destruct C as [->|(t & th & It & Ft & ->)]; [now left|right].
  destruct (header_date_shape th)
    as [(d1 & d2 & d3 & d4 & c & D1 & D2 & D3 & D4 & Cn & E)|E];
    rewrite E in *; cbn [fst snd] in *.
  - left. exists d1, d2, d3, d4, c. auto 10.
  - right. exists t, th. repeat split; auto. apply get_text_stripped.
Qed.

(** X5: [parse_html] leaves the clock alone and adds lines to standard
    output, after those already there: one on the week label; then the
    error line when there is no table, or else the line for the table and
    a last line that tells the number of entries it returns. *)
Theorem parse_prints (soup : node) (w : World) :
  exists wr menus w' week_line,
    parse_soup soup w = (Ok (wr, menus), w') /\
    clock w' = clock w /\
    stdout w'
    = stdout w
        ++ week_line
        :: match locate_table soup with
           | None => [U "[ERROR] 메뉴 테이블을 찾지 못했습니다."]
           | Some _ =>
               [U "[INFO] 메뉴 테이블 발견";
                U "[DEBUG] Parsed "
                  ++ str_of_N (N.of_nat (List.length menus))
                  ++ U " menu rows from table"]
           end.
Proof.
  destruct (parse_soup_spec soup w) as (menus & st' & w' & F & P & _).
  exists (option_map cell_text (select_one_date soup)), menus, w'.
  pose proof P as P0. unfold parse_soup, bind, ret, print, lift in P.
  unfold table_rows in F.
  destruct (select_one_date soup) as [date_el|];
    destruct (locate_table soup) as [table|]; cbv beta iota zeta in P;
    unfold day_state in *; try rewrite F in P;
    apply (f_equal snd) in P; cbn [fst snd stdout clock] in P;
    eexists; (split; [exact P0|]); rewrite <- P; (split; [reflexivity|]);
    cbn [stdout]; rewrite <- ?app_assoc; try reflexivity.
  all: apply (f_equal (fun r => match r with Ok a => fst a | Raise _ => [] end))
         in F; cbn [fst] in F; rewrite <- F; reflexivity.
Qed.

(** ** More on [generate_html] *)

(** X6: the text [esc] returns has no angle bracket and no quote, whatever
    it is given. *)
Theorem esc_no_markup (s : option pystr) :
  Forall (fun c => c <> 60%N /\ c <> 62%N /\ c <> 34%N /\ c <> 39%N) (esc s).
Proof.
  unfold esc, escape. generalize (match s with Some v => v | None => [] end).
  intros v. induction v as [|c v IH]; [constructor|].
  cbn [flat_map]. apply Forall_app. split; [|exact IH].
  destruct (c =? 38)%N eqn:E1;
    [vm_compute; repeat constructor; discriminate|].
  destruct (c =? 60)%N eqn:E2;
    [vm_compute; repeat constructor; discriminate|].
  destruct (c =? 62)%N eqn:E3;
    [vm_compute; repeat constructor; discriminate|].
  destruct (c =? 34)%N eqn:E4;
    [vm_compute; repeat constructor; discriminate|].
  destruct (c =? 39)%N eqn:E5;
    [vm_compute; repeat constructor; discriminate|].
  apply N.eqb_neq in E2, E3, E4, E5. repeat constructor; assumption.
Qed.

Lemma str_leb_refl (a : pystr) : str_leb a a = true.
Proof.
  induction a as [|x a IH]; simpl; [reflexivity|].
  now rewrite N.ltb_irrefl, N.eqb_refl.
Qed.

Lemma str_leb_total (a b : pystr) :
  str_leb a b = false -> str_leb b a = true.
Proof.
  revert b. induction a as [|x a IH]; intros [|y b]; simpl;
    try discriminate; try reflexivity.
  destruct (x <? y)%N eqn:L; [discriminate|].
  destruct (x =? y)%N eqn:E.
  - apply N.eqb_eq in E. subst. rewrite N.ltb_irrefl, N.eqb_refl. apply IH.
  - intros _. apply N.ltb_ge in L. apply N.eqb_neq in E.
    assert (H : (y <? x)%N = true) by (apply N.ltb_lt; lia).
    now rewrite H.
Qed.

Lemma str_leb_trans (a b c : pystr) :
  str_leb a b = true -> str_leb b c = true -> str_leb a c = true.
Proof.
  revert b c. induction a as [|x a IH]; intros [|y b] [|z c]; simpl;
    try discriminate; try reflexivity.
  destruct (x <? y)%N eqn:L1; destruct (y <? z)%N eqn:L2;
    destruct (x =? y)%N eqn:E1; destruct (y =? z)%N eqn:E2;
    try discriminate;
    rewrite ?N.ltb_lt, ?N.ltb_ge, ?N.eqb_eq, ?N.eqb_neq in *;
    intros H1 H2.
  all: try (assert (H : (x <? z)%N = true) by (apply N.ltb_lt; lia);
            now rewrite H).
  subst. rewrite (proj2 (N.ltb_ge z z)) by lia. rewrite N.eqb_refl. eauto.
Qed.

Lemma insert_key_perm (k : day_state) (l : list day_state) :
  Permutation (insert_key k l) (k :: l).
Proof.
  induction l as [|y l IH]; simpl; [reflexivity|].
  destruct (str_leb (sort_key k) (sort_key y)); [reflexivity|].
  rewrite IH. apply perm_swap.
Qed.

Lemma sorted_perm (l : list day_state) : Permutation (sorted l) l.
Proof.
  induction l as [|k l IH]; simpl; [reflexivity|].
  rewrite insert_key_perm. now constructor.
Qed.

Lemma insert_key_ordered (k : day_state) (l : list day_state) :
  StronglySorted key_le l -> StronglySorted key_le (insert_key k l).
Proof.
  induction 1 as [|y l S IH F]; simpl.
  - repeat constructor.
  - destruct (str_leb (sort_key k) (sort_key y)) eqn:E.
    + constructor; [now constructor|]. constructor; [exact E|].
      eapply Forall_impl; [|exact F]. intros z Hz.
      unfold key_le in *. eapply str_leb_trans; eauto.
    + constructor; [exact IH|].
      eapply Permutation_Forall; [symmetry; apply insert_key_perm|].
      constructor; [|exact F]. now apply str_leb_total.
Qed.

Lemma filter_insert_same_key (s : pystr) (k : day_state)
  (l : list day_state) :
  filter (fun x => str_eqb (sort_key x) s) (insert_key k l)
  = filter (fun x => str_eqb (sort_key x) s) (k :: l).
Proof.
  induction l as [|y l IH]; [reflexivity|].
  cbn [insert_key].
  destruct (str_leb (sort_key k) (sort_key y)) eqn:E; [reflexivity|].
  cbn [filter] in *. rewrite IH.
  destruct (str_eqb (sort_key k) s) eqn:K; [|reflexivity].
  destruct (str_eqb (sort_key y) s) eqn:Y; [|reflexivity].
  apply str_eqb_eq in K, Y. rewrite K, Y, str_leb_refl in E. discriminate.
Qed.

(** X7: [sorted] keeps every key, the same number of times; it puts the
    keys in the order of their [md] as strings, [None] counting as empty;
    and it keeps keys with the same [md] in the order they came. *)
Theorem sorted_stable_sort (l : list day_state) :
  Permutation (sorted l) l /\
  StronglySorted key_le (sorted l) /\
  forall s, filter (fun k => str_eqb (sort_key k) s) (sorted l)
            = filter (fun k => str_eqb (sort_key k) s) l.
Proof.
  split; [apply sorted_perm|]. split.
  - induction l as [|k l IH]; simpl; [constructor|].
    now apply insert_key_ordered.
  - intros s. induction l as [|k l IH]; [reflexivity|].
    cbn [sorted]. rewrite filter_insert_same_key. cbn [filter].
    now rewrite IH.
Qed.

Lemma key_eqb_true_iff (a b : day_state) : key_eqb a b = true <-> a = b.
Proof.
  split; [apply key_eqb_eq|]. intros ->. apply key_eqb_refl.
Qed.

Lemma key_eqb_sym (a b : day_state) : key_eqb a b = key_eqb b a.
Proof.
  destruct (key_eqb a b) eqn:E1, (key_eqb b a) eqn:E2; try reflexivity.
  - apply key_eqb_eq in E1. subst. now rewrite key_eqb_refl in E2.
  - apply key_eqb_eq in E2. subst. now rewrite key_eqb_refl in E1.
Qed.

Lemma group_get_append (g : groups) (k k' : day_state) (m : menu) :
  group_get (group_append g k' m) k
  = group_get g k ++ (if key_eqb k' k then [m] else []).
Proof.
  induction g as [|[k1 ms] g IH]; cbn [group_append group_get].
  - now destruct (key_eqb k' k).
  - destruct (key_eqb k1 k') eqn:E1; cbn [group_get].
    + apply key_eqb_eq in E1. subst k1.
      destruct (key_eqb k' k); [reflexivity|]. now rewrite app_nil_r.
    + destruct (key_eqb k1 k) eqn:E2; [|exact IH].
      destruct (key_eqb k' k) eqn:E3; [|now rewrite app_nil_r].
      apply key_eqb_eq in E2, E3. subst.
      now rewrite key_eqb_refl in E1.
Qed.

Lemma group_get_fold (menus : list menu) (g : groups) (k : day_state) :
  group_get (fold_left (fun g m => group_append g (md m, weekday m) m)
                       menus g) k
  = group_get g k
      ++ filter (fun m => key_eqb (md m, weekday m) k) menus.
Proof.
  revert g. induction menus as [|m menus IH]; intros g; cbn [fold_left filter].
  - now rewrite app_nil_r.
  - rewrite IH, group_get_append, <- app_assoc.
    now destruct (key_eqb (md m, weekday m) k).
Qed.

(** X8: the bucket of a key holds the entries with that [md] and that
    [weekday], all of them and no other, in the order of [menus]; a key
    that no entry has gives the empty list. *)
Theorem group_get_filter_menus (menus : list menu) (k : day_state) :
  group_get (group_menus menus) k
  = filter (fun m => key_eqb (md m, weekday m) k) menus.
Proof. apply (group_get_fold menus [] k). Qed.

Lemma group_append_keys (g : groups) (k : day_state) (m : menu) :
  map fst (group_append g k m)
  = if existsb (fun k' => key_eqb k' k) (map fst g) then map fst g
    else map fst g ++ [k].
Proof.
  induction g as [|[k1 ms] g IH]; cbn [group_append map fst existsb];
    [reflexivity|].
  destruct (key_eqb k1 k); cbn [map fst orb]; [reflexivity|].
  rewrite IH. now destruct (existsb _ _).
Qed.

Lemma group_keys_fold (menus : list menu) :
  forall g : groups,
    NoDup (map fst g) ->
    NoDup (map fst (fold_left
                      (fun g m => group_append g (md m, weekday m) m)
                      menus g)) /\
    forall k,
      In k (map fst (fold_left
                       (fun g m => group_append g (md m, weekday m) m)
                       menus g))
      <-> In k (map fst g) \/ exists m, In m menus /\ k = (md m, weekday m).
Proof.
  induction menus as [|m menus IH]; intros g N; cbn [fold_left].
  - split; [exact N|]. intros k. split; [auto|].
    intros [H|(m & [] & _)]. exact H.
  - assert (N' : NoDup (map fst (group_append g (md m, weekday m) m))).
    { rewrite group_append_keys.
      destruct (existsb _ _) eqn:E; [exact N|].
      apply NoDup_app; [exact N|repeat constructor; intros []|].
      intros x Hx [Ex|[]]. subst x.
      assert (X : existsb (fun k' => key_eqb k' (md m, weekday m))
                          (map fst g) = true).
      { apply existsb_exists. exists (md m, weekday m).
        split; [exact Hx|]. apply key_eqb_refl. }
      congruence. }
    destruct (IH _ N') as [N2 I2]. split; [exact N2|].
    intros k. rewrite I2, group_append_keys. split.
    + intros [H|(x & Hx & ->)].
      * destruct (existsb _ _) eqn:E; [now left|].
        apply in_app_or in H as [H|[<-|[]]]; [now left|].
        right. exists m. split; [now left|reflexivity].
      * right. exists x. split; [now right|reflexivity].
    + intros [H|(x & [->|Hx] & ->)].
      * left. destruct (existsb _ _); [exact H|].
        apply in_or_app. now left.
      * left. destruct (existsb _ _) eqn:E.
        -- apply existsb_exists in E as (y & Hy & Ey).
           apply key_eqb_eq in Ey. now subst.
        -- apply in_or_app. right. now left.
      * right. exists x. auto.
Qed.

(** X9: [grouped] has every pair of [md] and [weekday] that some entry has
    as a key, once, and has no other key. *)
Theorem group_menus_keys (menus : list menu) :
  NoDup (map fst (group_menus menus)) /\
  forall k, In k (map fst (group_menus menus))
            <-> exists m, In m menus /\ k = (md m, weekday m).
Proof.
  destruct (@group_keys_fold menus [] (NoDup_nil _)) as [N I].
  split; [exact N|]. intros k. rewrite (I k). simpl. tauto.
Qed.

Lemma join_split (sep p : pystr) (parts : list pystr) :
  In p parts -> exists a b, join sep parts = a ++ p ++ b.
Proof.
  induction parts as [|q parts IH]; [intros []|].
  intros [->|I].
  - destruct parts as [|r parts].
    + exists [], []. simpl. now rewrite app_nil_r.
    + exists [], (sep ++ join sep (r :: parts)). reflexivity.
  - destruct (IH I) as (a & b & E). destruct parts as [|r parts]; [destruct I|].
    exists (q ++ sep ++ a), b.
    change (join sep (q :: r :: parts)) with (q ++ sep ++ join sep (r :: parts)).
    rewrite E. now rewrite <- !app_assoc.
Qed.

Lemma contains_join (sep p : pystr) (parts : list pystr) :
  In p parts -> contains p (join sep parts) = true.
Proof.
  intros I. destruct (join_split sep p parts I) as (a & b & ->).
  apply contains_app.
Qed.

Lemma or_empty_some (s : pystr) : or_empty (Some s) = s.
Proof. now destruct s. Qed.

Lemma meal_card_lists (d : option pystr) (m : menu) (item : pystr) :
  In item (listed_items m) ->
  In (U "<li>" ++ esc (Some item) ++ U "</li>") (meal_card d m).
Proof.
  intros I. unfold meal_card. rewrite !or_empty_some.
  fold (listed_items m).
  apply in_or_app. right. apply in_or_app. right. apply in_or_app. right.
  apply in_or_app. left.
  destruct (listed_items m) as [|x l] eqn:E; [destruct I|].
  apply in_or_app. right. apply in_or_app. left.
  apply (in_map (fun i => U "<li>" ++ esc (Some i) ++ U "</li>")) in I.
  exact I.
Qed.

Lemma day_panel_lists (g : groups) (k : day_state) (m : menu)
  (item : pystr) :
  truthy (fst k) = true ->
  In m (group_get g k) ->
  In item (listed_items m) ->
  In (U "<li>" ++ esc (Some item) ++ U "</li>") (day_panel g k).
Proof.
  destruct k as [d wd]. cbn [fst]. intros K Im Ii.
  unfold day_panel. rewrite K. cbn [negb].
  apply in_or_app. right. apply in_or_app. left.
  destruct (group_get g (d, wd)) as [|x l] eqn:E; [destruct Im|].
  apply in_flat_map. exists m. split; [exact Im|].
  now apply meal_card_lists.
Qed.

(** X10: the document lists every line of every entry that has a date:
    its title, unless empty or the placeholder, and each of its items has
    its own list element there, escaped. *)
Theorem render_lists_dated_items (updated_kst : pystr)
  (week_range : option pystr) (menus : list menu) (m : menu)
  (item : pystr) :
  In m menus ->
  truthy (md m) = true ->
  In item (listed_items m) ->
  contains (U "<li>" ++ esc (Some item) ++ U "</li>")
           (render_at updated_kst week_range menus) = true.
Proof.
  intros Im K Ii. unfold render_at. apply contains_join.
  apply in_or_app. right. apply in_or_app. right.
  unfold body_parts.
  apply in_or_app. right. apply in_or_app. right.
  apply in_or_app. right. apply in_or_app. left.
  apply in_flat_map. exists (md m, weekday m). split.
  - eapply Permutation_in; [symmetry; apply sorted_perm|].
    destruct (@group_keys_fold menus [] (NoDup_nil _)) as [_ I].
    apply I. right. eauto.
  - apply day_panel_lists with (m := m); [exact K| |exact Ii].
    unfold group_menus. rewrite group_get_fold. cbn [group_get app].
    apply filter_In. split; [exact Im|apply key_eqb_refl].
Qed.

(** ** [fetch_html] and [main] *)

Lemma raise_for_status_none (status_code : N) (reason url : pystr) :
  raise_for_status status_code reason url = None
  <-> in_range 400 200 status_code = false.
Proof.
  unfold raise_for_status, in_range.
  destruct (400 <=? status_code)%N eqn:A;
    destruct (status_code <? 400 + 100)%N eqn:B;
    destruct (500 <=? status_code)%N eqn:C;
    destruct (status_code <? 500 + 100)%N eqn:D;
    destruct (status_code <? 400 + 200)%N eqn:E;
    rewrite ?N.leb_le, ?N.leb_gt, ?N.ltb_lt, ?N.ltb_ge in *;
    cbn [andb]; split; intros H; try discriminate; try reflexivity; lia.
Qed.

Lemma fetch_html_ok (e : Env) (text : pystr) :
  reply_ok e text -> fetch_html e = (Ok text, e).
Proof.
  intros (status_code & reason & url & N & R). unfold fetch_html.
  now rewrite N, R.
Qed.

Lemma fetch_html_failed (e : Env) :
  (forall text, ~ reply_ok e text) ->
  exists message,
    fetch_html e
    = (Ok [],
       {| world := {| stdout := stdout (world e)
                                  ++ [U "[ERROR] fetch_html failed: "
                                        ++ message];
                      clock := clock (world e) |};
          network := network e; files := files e; dirs := dirs e;
          os_error := os_error e |}).
Proof.
  intros H. unfold fetch_html.
  destruct (network e URL) as [status_code reason url text|message] eqn:N.
  - destruct (raise_for_status status_code reason url) as [message|] eqn:R.
    + exists message. reflexivity.
    + exfalso. apply (H text). exists status_code, reason, url. auto.
  - exists message. reflexivity.
Qed.

(** X11: [fetch_html] raises nothing. A response outside the 4xx and 5xx
    status codes gives its text, and nothing changes; every other reply (a
    [RequestException], or a status that [raise_for_status] refuses) gives
    the empty string, and one line is printed. *)
Theorem fetch_html_contract (e : Env) :
  (forall text, reply_ok e text -> fetch_html e = (Ok text, e)) /\
  ((forall text, ~ reply_ok e text) ->
   fst (fetch_html e) = Ok [] /\
   files (snd (fetch_html e)) = files e /\
   dirs (snd (fetch_html e)) = dirs e /\
   List.length (stdout (world (snd (fetch_html e))))
   = S (List.length (stdout (world e)))).
Proof.
  split; [apply fetch_html_ok|].
  intros H. destruct (fetch_html_failed H) as [message ->].
  cbn [fst snd files dirs world stdout]. repeat split.
  rewrite length_app. simpl. lia.
Qed.

Lemma run_bind_ok (A B : Type) (m : Run A) (k : A -> Run B) (e e' : Env)
  (a : A) :
  m e = (Ok a, e') -> run_bind m k e = k a e'.
Proof. unfold run_bind. now intros ->. Qed.

Lemma in_world_ok (A : Type) (m : M A) (e : Env) (a : A) (w : World) :
  m (world e) = (Ok a, w) ->
  in_world m e
  = (Ok a, {| world := w; network := network e; files := files e;
              dirs := dirs e; os_error := os_error e |}).
Proof. unfold in_world. now intros ->. Qed.


Lemma parse_soup_clock (soup : node) (w : World) :
  exists wr menus w',
    parse_soup soup w = (Ok (wr, menus), w') /\ clock w' = clock w.
Proof.
  destruct (parse_soup_spec soup w) as (menus & st' & w' & F & P & _).
  exists (option_map cell_text (select_one_date soup)), menus, w'.
  split; [exact P|].
  unfold parse_soup, bind, ret, print, lift in P. unfold table_rows in F.
  destruct (select_one_date soup) as [date_el|];
    destruct (locate_table soup) as [table|]; cbv beta iota zeta in P;
    unfold day_state in *; try rewrite F in P;
    apply (f_equal snd) in P; cbn [fst snd stdout clock] in P;
    rewrite <- P; reflexivity.
Qed.

Lemma in_world_raise (A : Type) (m : M A) (e : Env) (x : exn) (w : World) :
  m (world e) = (Raise x, w) ->
  in_world m e
  = (Raise x, {| world := w; network := network e; files := files e;
                 dirs := dirs e; os_error := os_error e |}).
Proof. unfold in_world. now intros ->. Qed.

Lemma run_bind_raise (A B : Type) (m : Run A) (k : A -> Run B) (e e' : Env)
  (x : exn) :
  m e = (Raise x, e') -> run_bind m k e = (Raise x, e').
Proof. unfold run_bind. now intros ->. Qed.


(** X13: when every reply the program takes has an empty text (the request
    fails, the status is refused, or the body is empty), [main] raises
    nothing, prints why, and writes no file and makes no directory. *)
Theorem main_writes_nothing (BeautifulSoup : pystr -> Result node)
  (e : Env) :
  (forall text, reply_ok e text -> text = []) ->
  fst (main BeautifulSoup e) = Ok tt /\
  files (snd (main BeautifulSoup e)) = files e /\
  dirs (snd (main BeautifulSoup e)) = dirs e /\
  exists lines,
    stdout (world (snd (main BeautifulSoup e)))
    = stdout (world e) ++ lines ++ [U "[ERROR] No HTML, abort."].
Proof.
  intros H. unfold main, run_bind.
  destruct (network e URL) as [status_code reason url text|message] eqn:N.
  - destruct (raise_for_status status_code reason url) as [message|] eqn:R.
    + unfold fetch_html. rewrite N, R. unfold in_world, bind, print, ret.
      cbn [world network files dirs fst snd stdout].
      repeat split. eexists [_]. now rewrite <- app_assoc.
    + assert (Ok' : reply_ok e text)
        by (exists status_code, reason, url; auto).
      rewrite (fetch_html_ok Ok'). rewrite (H text Ok').
      unfold in_world, print. cbn [world network files dirs fst snd stdout].
      repeat split. now exists [].
  - unfold fetch_html. rewrite N. unfold in_world, bind, print, ret.
    cbn [world network files dirs fst snd stdout].
    repeat split. eexists [_]. now rewrite <- app_assoc.
Qed.

(** X16: when the reply has a text the parser refuses, [main] raises what
    the parser raised, after [fetch_html] and before anything is made or
    written: no file and no directory changes. *)
Theorem main_stops_on_parser_error (BeautifulSoup : pystr -> Result node)
  (e : Env) (text : pystr) (x : exn) :
  reply_ok e text ->
  text <> [] ->
  BeautifulSoup text = Raise x ->
  main BeautifulSoup e = (Raise x, e).
Proof.
  intros R T B. unfold main.
  erewrite run_bind_ok by (apply fetch_html_ok, R).
  destruct text as [|c t]; [contradiction|].
  erewrite run_bind_raise
    by (apply in_world_raise, (parse_html_raise _ _ _ B)).
  now destruct e.
Qed.

(** X17: when the text is parsed and the operating system refuses to make
    the directory public, [main] raises that error and writes no file;
    the lines of [parse_html] are printed by then. *)
Theorem main_stops_on_os_error (BeautifulSoup : pystr -> Result node)
  (e : Env) (text : pystr) (soup : node) (x : exn) :
  reply_ok e text ->
  text <> [] ->
  BeautifulSoup text = Ok soup ->
  os_error e (U "public") = Some x ->
  fst (main BeautifulSoup e) = Raise x /\
  files (snd (main BeautifulSoup e)) = files e /\
  dirs (snd (main BeautifulSoup e)) = dirs e /\
  world (snd (main BeautifulSoup e)) = snd (parse_soup soup (world e)).
Proof.
  intros R T B O.
  destruct (parse_soup_clock soup (world e)) as (wr & menus & w1 & P & C).
  pose proof P as P0.
  rewrite <- (parse_html_ok BeautifulSoup text (world e) B) in P.
  unfold main. erewrite run_bind_ok by (apply fetch_html_ok, R).
  destruct text as [|c t]; [contradiction|].
  erewrite run_bind_ok by (apply in_world_ok, P). cbn [fst snd].
  erewrite run_bind_raise
    by (unfold makedirs; cbn [os_error]; rewrite O; reflexivity).
  cbn [fst snd files dirs world]. rewrite P0. auto.
Qed.

(** ** More statements on the whole program *)

(** X14: the week label and the [meal] and [info] of every entry of the
    result have no white space at their start or end. *)
Theorem parse_texts_stripped (soup : node) (w : World) :
  exists wr menus w',
    parse_soup soup w = (Ok (wr, menus), w') /\
    match wr with
    | Some label => strip label = label
    | None => True
    end /\
    Forall (fun m => strip (meal m) = meal m /\ strip (info m) = info m)
           menus.
Proof.
  destruct (parse_soup_spec soup w) as (menus & st' & w' & _ & P & A).
  exists (option_map cell_text (select_one_date soup)), menus, w'.
  split; [exact P|]. split.
  - destruct (select_one_date soup); [apply get_text_stripped|exact I].
  - eapply Forall_impl; [|exact A]. cbv beta.
    intros m (tr & st0 & _ & _ & Bf).
    apply built_from_fields in Bf
      as (_ & _ & td0 & td1 & td2 & td3 & rest & _ & -> & -> & _).
    split; apply get_text_stripped.
Qed.

(** X15: what the locator returns is a node of the document, and a
    [table] tag. *)
Theorem locate_table_is_table (soup t : node) :
  locate_table soup = Some t ->
  In t (descendants soup) /\ is_named (U "table") t = true.
Proof.
  unfold locate_table.
  rewrite table_by_id_find, table_by_summary_find, table_by_caption_find.
  destruct (List.find id_matches (descendants soup)) eqn:F1.
  - intros H. injection H as ->. apply find_some in F1 as [I H].
    apply andb_true_iff in H. tauto.
  - destruct (List.find summary_attr_matches (descendants soup)) eqn:F2.
    + intros H. injection H as ->. apply find_some in F2 as [I H].
      apply andb_true_iff in H. tauto.
    + intros H. apply find_some in H as [I H].
      apply andb_true_iff in H. tauto.
Qed.

(** ** The further statements at sample inputs *)

(** X10 at the entry of the first sample row. *)
Lemma render_lists_dated_items_witness :
  contains (U "<li>" ++ esc (Some (U "김치")) ++ U "</li>")
           (render_at (U "2025-11-05 02:30") None [menu_lunch]) = true.
Proof.
  apply (@render_lists_dated_items (U "2025-11-05 02:30") None
           [menu_lunch] menu_lunch (U "김치")).
  - left. reflexivity.
  - reflexivity.
  - right. left. reflexivity.
Defined.

Lemma env_timeout_no_reply (text : pystr) : ~ reply_ok env_timeout text.
Proof.
  intros (status_code & reason & url & N & _). discriminate N.
Defined.

(** X11 when the request times out. *)
Lemma fetch_html_contract_witness :
  fst (fetch_html env_timeout) = Ok [] /\
  files (snd (fetch_html env_timeout)) = files env_timeout /\
  dirs (snd (fetch_html env_timeout)) = dirs env_timeout /\
  List.length (stdout (world (snd (fetch_html env_timeout))))
  = S (List.length (stdout (world env_timeout))).
Proof.
  destruct (fetch_html_contract env_timeout) as [_ H].
  apply H. exact env_timeout_no_reply.
Defined.



(** X13 when the request times out. *)
Lemma main_writes_nothing_witness :
  fst (main sample_parser env_timeout) = Ok tt /\
  files (snd (main sample_parser env_timeout))
  = files env_timeout /\
  dirs (snd (main sample_parser env_timeout))
  = dirs env_timeout /\
  exists lines,
    stdout (world (snd (main sample_parser env_timeout)))
    = stdout (world env_timeout) ++ lines ++ [U "[ERROR] No HTML, abort."].
Proof.
  apply (@main_writes_nothing sample_parser env_timeout).
  intros text R. destruct (env_timeout_no_reply R).
Defined.

(** X15 at the sample table. *)
Lemma locate_table_is_table_witness :
  In (Tag (U "table") [(U "id", AttrStr (U "listTable"))]
          [el "tbody" [row_lunch]])
     (descendants (listTable [row_lunch])) /\
  is_named (U "table")
           (Tag (U "table") [(U "id", AttrStr (U "listTable"))]
                [el "tbody" [row_lunch]]) = true.
Proof.
  apply (@locate_table_is_table (listTable [row_lunch])).
  reflexivity.
Defined.

Lemma env_refused_reply : reply_ok env_refused (U "<![foo bar]]>").
Proof.
  exists 200%N, (U "OK"), URL. split; reflexivity.
Defined.

(** X16 when the request is answered with the text the parser refuses. *)
Lemma main_stops_on_parser_error_witness :
  main refusing_parser env_refused = (Raise ParserRejectedMarkup, env_refused).
Proof.
  apply (@main_stops_on_parser_error refusing_parser env_refused
           (U "<![foo bar]]>") ParserRejectedMarkup).
  - exact env_refused_reply.
  - vm_compute. discriminate.
  - vm_compute. reflexivity.
Defined.

Lemma env_readonly_reply : reply_ok env_readonly (U "<table></table>").
Proof.
  exists 200%N, (U "OK"), URL. split; reflexivity.
Defined.

(** X17 when the operating system refuses every path. *)
Lemma main_stops_on_os_error_witness :
  fst (main sample_parser env_readonly) = Raise OSError /\
  files (snd (main sample_parser env_readonly)) = files env_readonly /\
  dirs (snd (main sample_parser env_readonly)) = dirs env_readonly /\
  world (snd (main sample_parser env_readonly))
  = snd (parse_soup (listTable [row_lunch]) (world env_readonly)).
Proof.
  apply (@main_stops_on_os_error sample_parser env_readonly
           (U "<table></table>") (listTable [row_lunch]) OSError).
  - exact env_readonly_reply.
  - vm_compute. discriminate.
  - reflexivity.
  - reflexivity.
Defined.
